(** * Knowledge-store synchronisation: [tools/sckan_connectivity.py]

    A shallow embedding of the [load], [extract], [restore] and [info]
    commands of [src/tools/sckan_connectivity.py] and of the part of
    Python, of the [json] module and of the [sqlite3] module that they rely
    on, followed by the properties of the store that the commands keep or
    break.

    Conventions.
    - A JSON document read by [json.load] is a value of [json]; numbers are
      integers (floats play no part in the commands) and a string is a
      sequence of one-byte characters.
    - A TEXT column written with [json.dumps(x)] holds the document [x]
      itself: [json.loads (json.dumps x) = x] on values that came out of
      [json.load], so the text and the document determine each other.
    - A Python exception aborts the command; the process ends and the
      connection is closed without a commit, so what the next process sees
      is the [disk] component of the connection.
    - mapknowledge and the remote are not part of the repository: what the
      commands need of them is a parameter, or is taken from the
      specification where a definition says so. *)

From Stdlib Require Import ZArith List String Ascii Bool Permutation.
Import ListNotations.
Local Open Scope string_scope.
Local Open Scope list_scope.

Set Warnings "-register-all".

(* ------------------------------------------------------------------ *)
(** * Python values and exceptions *)

Inductive json : Type :=
| JNull
| JBool (b : bool)
| JInt (z : Z)
| JStr (s : string)
| JArr (items : list json)
| JObj (members : list (string * json)).

Inductive exn : Type :=
| KeyError
| TypeError
| IndexError
| OverflowError
| ValueError
| IOError
| SystemExit (code : Z)
| IntegrityError        (* sqlite3.IntegrityError *)
| OperationalError      (* sqlite3.OperationalError *)
| ProgrammingError      (* sqlite3.ProgrammingError *)
| External (name : string). (* raised inside mapknowledge or the remote *)

Inductive result (A : Type) : Type :=
| Ok (a : A)
| Raise (e : exn).

Arguments Ok {A} a.
Arguments Raise {A} e.

Definition rbind {A B} (r : result A) (k : A -> result B) : result B :=
  match r with
  | Ok a => k a
  | Raise e => Raise e
  end.

(** [dict.get(key)] on the members of an object: the binding of [key]. *)
Fixpoint dict_lookup (key : string) (m : list (string * json)) : option json :=
  match m with
  | [] => None
  | (k, v) :: m' => if String.eqb k key then Some v else dict_lookup key m'
  end.

(** [d[key] = v] on a dict: an existing key keeps its position. *)
Fixpoint dict_set (key : string) (v : json) (m : list (string * json))
  : list (string * json) :=
  match m with
  | [] => [(key, v)]
  | (k, x) :: m' =>
      if String.eqb k key then (k, v) :: m' else (k, x) :: dict_set key v m'
  end.

(** [o[key]] for a [str] key. *)
Definition py_getitem_str (o : json) (key : string) : result json :=
  match o with
  | JObj m => match dict_lookup key m with
              | Some v => Ok v
              | None => Raise KeyError
              end
  | _ => Raise TypeError
  end.

(** [o[key] = v] for a [str] key. *)
Definition py_setitem_str (o : json) (key : string) (v : json) : result json :=
  match o with
  | JObj m => Ok (JObj (dict_set key v m))
  | _ => Raise TypeError
  end.

(** [key in o] for a [str] key.  The commands evaluate it only after
    [o['id']] has returned, that is on a dict (see [py_getitem_str]). *)
Definition py_contains_key (key : string) (o : json) : bool :=
  match o with
  | JObj m => match dict_lookup key m with Some _ => true | None => false end
  | _ => false
  end.

(** [o.get(key, default)]. *)
Definition py_get_default (o : json) (key : string) (default : json) : json :=
  match o with
  | JObj m => match dict_lookup key m with Some v => v | None => default end
  | _ => default
  end.

Definition chars (s : string) : list json :=
  map (fun c => JStr (String c EmptyString)) (list_ascii_of_string s).

(** [iter(o)], run to the end: a list gives its items, a string its
    characters, a dict its keys. *)
Definition py_iter (o : json) : result (list json) :=
  match o with
  | JArr l => Ok l
  | JStr s => Ok (chars s)
  | JObj m => Ok (map (fun kv => JStr (fst kv)) m)
  | _ => Raise TypeError
  end.

(** [o[i]] for a non-negative [int] index. *)
Definition py_getitem_int (o : json) (i : nat) : result json :=
  match o with
  | JArr l => match nth_error l i with
              | Some v => Ok v
              | None => Raise IndexError
              end
  | JStr s => match nth_error (chars s) i with
              | Some v => Ok v
              | None => Raise IndexError
              end
  | JObj _ => Raise KeyError
  | _ => Raise TypeError
  end.

(** [hash(o)]: lists and dicts are unhashable. *)
Definition py_hashable (o : json) : result unit :=
  match o with
  | JArr _ | JObj _ => Raise TypeError
  | _ => Ok tt
  end.

Definition int_of_bool (b : bool) : Z := if b then 1%Z else 0%Z.

(** [a == b] on hashable values: [True == 1] and [False == 0]. *)
Definition py_eqb (a b : json) : bool :=
  match a, b with
  | JNull, JNull => true
  | JBool x, JBool y => Bool.eqb x y
  | JBool x, JInt y => Z.eqb (int_of_bool x) y
  | JInt x, JBool y => Z.eqb x (int_of_bool y)
  | JInt x, JInt y => Z.eqb x y
  | JStr x, JStr y => String.eqb x y
  | _, _ => false
  end.

Fixpoint py_list_eqb (l1 l2 : list json) : bool :=
  match l1, l2 with
  | [], [] => true
  | a :: l1', b :: l2' => py_eqb a b && py_list_eqb l1' l2'
  | _, _ => false
  end.

(** The tuple [(node[0], tuple(node[1]))] of [restore]. *)
Record node : Type := Node { term : json; qualifiers : list json }.

Definition node_eqb (a b : node) : bool :=
  py_eqb (term a) (term b) && py_list_eqb (qualifiers a) (qualifiers b).

Fixpoint hashable_all (l : list json) : result unit :=
  match l with
  | [] => Ok tt
  | x :: l' => rbind (py_hashable x) (fun _ => hashable_all l')
  end.

(** [hash(node)] hashes the term, then the qualifiers in order. *)
Definition node_hashable (n : node) : result unit :=
  rbind (py_hashable (term n)) (fun _ => hashable_all (qualifiers n)).

(** [node in seen_nodes]; the set is kept in insertion order. *)
Definition set_mem (n : node) (seen : list node) : bool :=
  existsb (node_eqb n) seen.

(** [json.dumps(node)]: a tuple is written as an array. *)
Definition dumps_node (n : node) : json :=
  JArr [term n; JArr (qualifiers n)].

(* ------------------------------------------------------------------ *)
(** * The store: SQLite tables and a [sqlite3] connection *)

(** A value held in a column or bound to a [?] placeholder.  A column
    keeps the storage class of the value bound to it: the specification
    declares no column types, so no type affinity is applied. *)
Inductive sqlval : Type :=
| SqlNull
| SqlInt (z : Z)
| SqlText (s : string).

(** Binding a Python value to a placeholder: [None], [bool], [int] and
    [str] are adapted, an [int] outside 64 bits overflows, a list or a dict
    is refused. *)
Definition sql_bind (v : json) : result sqlval :=
  match v with
  | JNull => Ok SqlNull
  | JBool b => Ok (SqlInt (int_of_bool b))
  | JInt z =>
      if ((- 2 ^ 63 <=? z) && (z <? 2 ^ 63))%Z then Ok (SqlInt z)
      else Raise OverflowError
  | JStr s => Ok (SqlText s)
  | JArr _ | JObj _ => Raise ProgrammingError
  end.

(** The Python value of a column read back by [fetchall]. *)
Definition py_of_sql (v : sqlval) : json :=
  match v with
  | SqlNull => JNull
  | SqlInt z => JInt z
  | SqlText s => JStr s
  end.

(** SQL [a = b] holding: a comparison with NULL never holds. *)
Definition sql_eq (a b : sqlval) : bool :=
  match a, b with
  | SqlInt x, SqlInt y => Z.eqb x y
  | SqlText x, SqlText y => String.eqb x y
  | _, _ => false
  end.

Definition knowledge_row : Type := sqlval * sqlval * json.
Definition label_row : Type := sqlval * sqlval.
Definition publication_row : Type := sqlval * sqlval * sqlval.
Definition connectivity_row : Type := sqlval * json * sqlval.

(** Modelled from the spec: the schema is created by mapknowledge's
    [KnowledgeStore], which is not part of this repository.  Section 6 of
    the specification gives it as [knowledge(source, entity, payload_json)]
    unique(source, entity); [labels(entity, label)] unique(entity);
    [publications(source, entity, publication)];
    [connectivity_nodes(source, node_json, path_entity)].  A table is the
    list of its rows in rowid order, so an insert appends. *)
Record tables : Type := Tables {
  knowledge : list knowledge_row;
  labels : list label_row;
  publications : list publication_row;
  connectivity_nodes : list connectivity_row
}.

Definition empty_store : tables := Tables [] [] [] [].

(** A connection: the committed image of the file and the image seen
    through the open transaction. *)
Record connection : Type := Connection { disk : tables; txn : tables }.

Definition connect (t : tables) : connection := Connection t t.

(** Commands run in a state-and-exception monad over the connection. *)
Definition M (A : Type) : Type := connection -> result A * connection.

Definition ret {A} (a : A) : M A := fun c => (Ok a, c).

Definition raise {A} (e : exn) : M A := fun c => (Raise e, c).

Definition bind {A B} (m : M A) (k : A -> M B) : M B :=
  fun c =>
    match m c with
    | (Ok a, c') => k a c'
    | (Raise e, c') => (Raise e, c')
    end.

Definition lift {A} (r : result A) : M A :=
  fun c => (r, c).

Declare Scope cmd_scope.
Delimit Scope cmd_scope with cmd.
Notation "x <- m ;; k" := (bind m (fun x => k))
  (at level 61, m at next level, right associativity) : cmd_scope.
Notation "m ;; k" := (bind m (fun _ => k))
  (at level 61, right associativity) : cmd_scope.
Local Open Scope cmd_scope.

(** [for x in l: body(x)]. *)
Fixpoint for_each {A} (body : A -> M unit) (l : list A) : M unit :=
  match l with
  | [] => ret tt
  | x :: l' => body x ;; for_each body l'
  end.

(** A loop that carries a local variable [s]. *)
Fixpoint for_each_with {A S} (body : S -> A -> M S) (s : S) (l : list A)
  : M S :=
  match l with
  | [] => ret s
  | x :: l' => s' <- body s x ;; for_each_with body s' l'
  end.

(** A statement changes the transaction's image only. *)
Definition update (f : tables -> tables) : M unit :=
  fun c => (Ok tt, Connection (disk c) (f (txn c))).

(** [db.commit()]. *)
Definition commit : M unit :=
  fun c => (Ok tt, Connection (txn c) (txn c)).

(** Compiling [insert into t(columns) values (?, ..., ?)]: SQLite refuses
    the statement when the number of values is not the number of
    columns. *)
Definition prepare_insert (columns : list string) (placeholders : nat)
  : result unit :=
  if Nat.eqb (List.length columns) placeholders then Ok tt
  else Raise OperationalError.

(** Binding a parameter tuple to the placeholders of a statement. *)
Fixpoint bind_all (params : list json) : result (list sqlval) :=
  match params with
  | [] => Ok []
  | p :: ps =>
      rbind (sql_bind p) (fun v =>
      rbind (bind_all ps) (fun vs => Ok (v :: vs)))
  end.

Definition bind_params (placeholders : nat) (params : list json)
  : result (list sqlval) :=
  if Nat.eqb (List.length params) placeholders then bind_all params
  else Raise ProgrammingError.

Definition set_knowledge (f : list knowledge_row -> list knowledge_row)
  (t : tables) : tables :=
  Tables (f (knowledge t)) (labels t) (publications t) (connectivity_nodes t).

Definition set_labels (f : list label_row -> list label_row)
  (t : tables) : tables :=
  Tables (knowledge t) (f (labels t)) (publications t) (connectivity_nodes t).

Definition set_publications
  (f : list publication_row -> list publication_row) (t : tables) : tables :=
  Tables (knowledge t) (labels t) (f (publications t)) (connectivity_nodes t).

Definition set_connectivity_nodes
  (f : list connectivity_row -> list connectivity_row) (t : tables) : tables :=
  Tables (knowledge t) (labels t) (publications t) (f (connectivity_nodes t)).

Definition other_source {B C} (s : sqlval) (r : sqlval * B * C) : bool :=
  negb (sql_eq (fst (fst r)) s).

(** [delete from knowledge where source=?]. *)
Definition delete_knowledge (source : json) : M unit :=
  s <- lift (sql_bind source) ;;
  update (set_knowledge (filter (other_source s))).

(** [delete from connectivity_nodes where source=?]. *)
Definition delete_connectivity_nodes (source : json) : M unit :=
  s <- lift (sql_bind source) ;;
  update (set_connectivity_nodes (filter (other_source s))).

(** The unique index on [knowledge(source, entity)]. *)
Definition knowledge_conflict (s e : sqlval) (rows : list knowledge_row)
  : bool :=
  existsb (fun r => sql_eq (fst (fst r)) s && sql_eq (snd (fst r)) e) rows.

(** [insert into knowledge (source, entity, knowledge) values (?, ?, ?)]
    with the parameters [(source, entity, json.dumps(doc))]. *)
Definition insert_knowledge (source entity doc : json) : M unit :=
  lift (prepare_insert ["source"; "entity"; "knowledge"] 3) ;;
  s <- lift (sql_bind source) ;;
  e <- lift (sql_bind entity) ;;
  fun c =>
    if knowledge_conflict s e (knowledge (txn c))
    then (Raise IntegrityError, c)
    else update (set_knowledge (fun rows => rows ++ [(s, e, doc)])) c.

(** [replace into labels values (?, ?)]: the row that holds the same
    entity, if any, is deleted and the new row is inserted. *)
Definition replace_label (entity label : json) : M unit :=
  lift (prepare_insert ["entity"; "label"] 2) ;;
  e <- lift (sql_bind entity) ;;
  l <- lift (sql_bind label) ;;
  update (set_labels (fun rows =>
    filter (fun r => negb (sql_eq (fst r) e)) rows ++ [(e, l)])).

(** [delete from publications where source=? and entity=?]. *)
Definition delete_publications (source entity : json) : M unit :=
  s <- lift (sql_bind source) ;;
  e <- lift (sql_bind entity) ;;
  update (set_publications (filter (fun r =>
    negb (sql_eq (fst (fst r)) s && sql_eq (snd (fst r)) e)))).

(** The statement of line 132,
    [insert into publications(source, entity, publication) values (?, ?)]:
    three columns and two placeholders. *)
Definition publications_columns : list string :=
  ["source"; "entity"; "publication"].

Definition publications_placeholders : nat := 2.

(** One parameter tuple of the [executemany]: bound to the placeholders,
    then inserted as a row. *)
Definition insert_publication (params : list json) : M unit :=
  vs <- lift (bind_params publications_placeholders params) ;;
  match vs with
  | [s; e; p] => update (set_publications (fun rows => rows ++ [(s, e, p)]))
  | _ => raise ProgrammingError
  end.

(** [executemany(statement, rows)]: the statement is compiled before the
    first row is asked for. *)
Definition insert_publications (rows : list (list json)) : M unit :=
  lift (prepare_insert publications_columns publications_placeholders) ;;
  for_each insert_publication rows.

(** [insert into connectivity_nodes (source, node, path) values (?, ?, ?)]
    with the parameters [(source, json.dumps(node), entity)]. *)
Definition insert_connectivity_node (source : json) (n : node) (entity : json)
  : M unit :=
  lift (prepare_insert ["source"; "node"; "path"] 3) ;;
  s <- lift (sql_bind source) ;;
  e <- lift (sql_bind entity) ;;
  update (set_connectivity_nodes (fun rows => rows ++ [(s, dumps_node n, e)])).

(** Modelled from the spec: [KnowledgeStore.clean_connectivity] belongs to
    mapknowledge and is not part of this repository.  It is the
    [deleteSource] of section 4.1: it removes all rows of the source from
    knowledge, connectivity_nodes and publications, and leaves the
    transaction to its caller. *)
Definition clean_connectivity (source : json) : M unit :=
  s <- lift (sql_bind source) ;;
  update (fun t =>
    Tables (filter (other_source s) (knowledge t))
           (labels t)
           (filter (other_source s) (publications t))
           (filter (other_source s) (connectivity_nodes t))).

(* ------------------------------------------------------------------ *)
(** * The commands *)

(** ** [restore] *)

(** The body of [for node in edge], with [seen_nodes] as loop variable. *)
Definition restore_node (knowledge_source entity : json) (seen_nodes : list node)
  (nd : json) : M (list node) :=
  t <- lift (py_getitem_int nd 0) ;;
  q <- lift (py_getitem_int nd 1) ;;
  qs <- lift (py_iter q) ;;
  let n := Node t qs in
  lift (node_hashable n) ;;
  if set_mem n seen_nodes then ret seen_nodes
  else
    insert_connectivity_node knowledge_source n entity ;;
    ret (seen_nodes ++ [n]).

(** The body of [for edge in knowledge['connectivity']]. *)
Definition restore_edge (knowledge_source entity : json) (seen_nodes : list node)
  (edge : json) : M (list node) :=
  nodes <- lift (py_iter edge) ;;
  for_each_with (restore_node knowledge_source entity) seen_nodes nodes.

(** The body of [for knowledge in saved_knowledge['knowledge']]. *)
Definition restore_record (knowledge_source knowledge : json) : M unit :=
  entity <- lift (py_getitem_str knowledge "id") ;;
  insert_knowledge knowledge_source entity knowledge ;;
  (if py_contains_key "label" knowledge then
     label <- lift (py_getitem_str knowledge "label") ;;
     replace_label entity label
   else ret tt) ;;
  (if py_contains_key "references" knowledge then
     let references := py_get_default knowledge "references" (JArr []) in
     delete_publications knowledge_source entity ;;
     refs <- lift (py_iter references) ;;
     insert_publications
       (map (fun reference => [knowledge_source; entity; reference]) refs)
   else ret tt) ;;
  (if py_contains_key "connectivity" knowledge then
     connectivity <- lift (py_getitem_str knowledge "connectivity") ;;
     edges <- lift (py_iter connectivity) ;;
     for_each_with (restore_edge knowledge_source entity) [] edges ;;
     ret tt
   else ret tt).

(** Lines 118 to 142 of [restore]: every statement before the commit. *)
Definition restore_rows (saved_knowledge : json) : M unit :=
  knowledge_source <- lift (py_getitem_str saved_knowledge "source") ;;
  clean_connectivity knowledge_source ;;
  delete_knowledge knowledge_source ;;
  delete_connectivity_nodes knowledge_source ;;
  saved <- lift (py_getitem_str saved_knowledge "knowledge") ;;
  records <- lift (py_iter saved) ;;
  for_each (restore_record knowledge_source) records.

(** [restore], from the parsed snapshot on, on an open connection. *)
Definition restore_cmd (saved_knowledge : json) : M unit :=
  restore_rows saved_knowledge ;;
  commit.

(** [restore] on a store that opened: the outcome and the connection it
    leaves. *)
Definition restore (saved_knowledge : json) (store : tables)
  : result unit * connection :=
  restore_cmd saved_knowledge (connect store).

(** The store that the next process finds. *)
Definition stored {A} (r : result A * connection) : tables := disk (snd r).

Definition outcome {A} (r : result A * connection) : result A := fst r.

(** ** [extract], [load] and [info] *)

(** What the [KnowledgeStore] constructor hands back: [store.db] (absent
    when the file could not be opened) and [store.source]. *)
Record store_handle : Type := Handle {
  db_open : bool;
  handle_source : option string
}.

Definition py_of_source (s : option string) : json :=
  match s with
  | Some x => JStr x
  | None => JNull
  end.

(** One row of [select entity, knowledge from knowledge where source=?]
    turned into a snapshot record. *)
Definition extract_row (row : knowledge_row) : result json :=
  py_setitem_str (snd row) "id" (py_of_sql (snd (fst row))).

Fixpoint extract_rows (rows : list knowledge_row) : result (list json) :=
  match rows with
  | [] => Ok []
  | row :: rows' =>
      rbind (extract_row row) (fun k =>
      rbind (extract_rows rows') (fun ks => Ok (k :: ks)))
  end.

(** The order of SQLite on the values of a column: NULL first, then the
    numbers, then the texts, compared byte by byte. *)
Definition sql_leb (a b : sqlval) : bool :=
  match a, b with
  | SqlNull, _ => true
  | SqlInt _, SqlNull => false
  | SqlInt x, SqlInt y => (x <=? y)%Z
  | SqlInt _, SqlText _ => true
  | SqlText _, SqlNull => false
  | SqlText _, SqlInt _ => false
  | SqlText x, SqlText y => String.leb x y
  end.

(** The entry [x] put into a list that is in the order of [key]; it goes
    before the entries of the same key, which have a larger rowid. *)
Fixpoint index_insert {A} (key : A -> sqlval) (x : A) (l : list A) : list A :=
  match l with
  | [] => [x]
  | y :: l' =>
      if sql_leb (key x) (key y) then x :: l
      else y :: index_insert key x l'
  end.

(** The rows of a table in the order of an index on [key]: by key, and by
    rowid where the keys are equal. *)
Definition index_order {A} (key : A -> sqlval) (l : list A) : list A :=
  fold_right (index_insert key) [] l.

Definition row_entity (r : knowledge_row) : sqlval := snd (fst r).

(** [select entity, knowledge from knowledge where source=?].  The
    statement has no [order by] and SQLite answers it through the unique
    index on (source, entity): the rows of the source come in the order of
    their entities, not in the order of their insertion. *)
Definition select_knowledge (source : json) : M (list knowledge_row) :=
  s <- lift (sql_bind source) ;;
  fun c =>
    (Ok (index_order row_entity
           (filter (fun r => sql_eq (fst (fst r)) s) (knowledge (txn c)))), c).

Section Collaborators.

(** mapknowledge and the remote are outside the repository; the commands
    see them through these entry points. *)

(** [os.environ.get('SCICRUNCH_API_KEY')]. *)
Variable scicrunch_key : option string.

(** [KnowledgeStore(..., sckan_version, scicrunch_key, use_sckan=True)]:
    it resolves [store.source] with the remote, or raises. *)
Variable KnowledgeStore_sckan : result store_handle.

(** [KnowledgeStore(..., read_only=True, knowledge_source=...)]. *)
Variable KnowledgeStore_read_only :
  option string -> tables -> result store_handle.

(** [store.connectivity_paths()]. *)
Variable connectivity_paths : result (list string).

(** [store.entity_knowledge(path, source=...)]. *)
Variable entity_knowledge : string -> json -> M unit.

(** [store.close()]. *)
Variable close : M unit.

(** [store.knowledge_sources()]. *)
Variable knowledge_sources : tables -> list string.

(** [--save-json]. *)
Variable save_json : bool.

(** [extract], on a read-only connection of its own: the name of the file
    written in the store directory and the document dumped into it. *)
Definition extract_cmd (arg_source : option string) : M (string * json) :=
  fun c =>
    (store <- lift (KnowledgeStore_read_only arg_source (disk c)) ;;
     if negb (db_open store) then raise IOError
     else
       match handle_source store with
       | None => raise ValueError
       | Some knowledge_source =>
           rows <- select_knowledge (JStr knowledge_source) ;;
           saved <- lift (extract_rows rows) ;;
           ret (String.append knowledge_source ".json",
                JObj [("source", JStr knowledge_source);
                      ("knowledge", JArr saved)])
       end) (connect (disk c)).

Definition extract (arg_source : option string) (store : tables)
  : result (string * json) * connection :=
  extract_cmd arg_source (connect store).

(** Lines 53 to 75 of [load]; the value returned is the file saved by
    [--save-json]. *)
Definition load_steps (source : option string)
  : M (option (string * json)) :=
  let knowledge_source := py_of_source source in
  delete_knowledge knowledge_source ;;
  delete_connectivity_nodes knowledge_source ;;
  commit ;;
  paths <- lift connectivity_paths ;;
  for_each (fun path => entity_knowledge path knowledge_source) paths ;;
  close ;;
  if save_json then
    saved <- extract_cmd source ;;
    ret (Some saved)
  else ret None.

(** [load], from the lookup of the API key on. *)
Definition load_cmd : M (option (string * json)) :=
  match scicrunch_key with
  | None => raise (SystemExit 1)
  | Some _ =>
      store <- lift KnowledgeStore_sckan ;;
      if negb (db_open store) then raise IOError
      else load_steps (handle_source store)
  end.

Definition load (store : tables) : result (option (string * json)) * connection :=
  load_cmd (connect store).

(** [info]: the lines printed. *)
Definition info_cmd : M (list string) :=
  fun c => (Ok (knowledge_sources (txn c)), c).

Definition info (store : tables) : result (list string) * connection :=
  info_cmd (connect store).

End Collaborators.

(* ------------------------------------------------------------------ *)
(** * What a record makes [restore] write

    The reading of one snapshot record, without the connection: the entity
    bound for its [id], the label bound when it has one, and the value of
    [seen_nodes] when its connectivity loop ends.  The lemmas below show
    that [restore_record] writes exactly this. *)

(** [node = (node[0], tuple(node[1]))], followed by its hashing. *)
Definition parse_node (nd : json) : result node :=
  rbind (py_getitem_int nd 0) (fun t =>
  rbind (py_getitem_int nd 1) (fun q =>
  rbind (py_iter q) (fun qs =>
  rbind (node_hashable (Node t qs)) (fun _ => Ok (Node t qs))))).

Definition see_node (seen : list node) (nd : json) : result (list node) :=
  rbind (parse_node nd) (fun n =>
  Ok (if set_mem n seen then seen else seen ++ [n])).

Fixpoint see_nodes (seen : list node) (nds : list json)
  : result (list node) :=
  match nds with
  | [] => Ok seen
  | nd :: nds' => rbind (see_node seen nd) (fun seen' => see_nodes seen' nds')
  end.

Definition see_edge (seen : list node) (edge : json) : result (list node) :=
  rbind (py_iter edge) (see_nodes seen).

Fixpoint see_edges (seen : list node) (edges : list json)
  : result (list node) :=
  match edges with
  | [] => Ok seen
  | edge :: edges' =>
      rbind (see_edge seen edge) (fun seen' => see_edges seen' edges')
  end.

(** The distinct nodes of a record, in the order of their first sighting. *)
Definition record_nodes (r : json) : result (list node) :=
  if py_contains_key "connectivity" r then
    rbind (py_getitem_str r "connectivity") (fun connectivity =>
    rbind (py_iter connectivity) (see_edges []))
  else Ok [].

Definition record_entity (r : json) : result sqlval :=
  rbind (py_getitem_str r "id") sql_bind.

Definition record_label (r : json) : result (option sqlval) :=
  if py_contains_key "label" r then
    rbind (py_getitem_str r "label") (fun l =>
    rbind (sql_bind l) (fun v => Ok (Some v)))
  else Ok None.

Record plan : Type := Plan {
  plan_entity : sqlval;
  plan_label : option sqlval;
  plan_nodes : list node
}.

(** A record with a [references] member has no plan: its publications
    statement does not compile. *)
Definition record_plan (r : json) : result plan :=
  rbind (record_entity r) (fun e =>
  rbind (record_label r) (fun l =>
  if py_contains_key "references" r then Raise OperationalError
  else rbind (record_nodes r) (fun ns => Ok (Plan e l ns)))).

Definition relabel (e : sqlval) (l : option sqlval) (rows : list label_row)
  : list label_row :=
  match l with
  | Some v => filter (fun r => negb (sql_eq (fst r) e)) rows ++ [(e, v)]
  | None => rows
  end.

Definition node_row (s e : sqlval) (n : node) : connectivity_row :=
  (s, dumps_node n, e).

Definition apply_plan (s : sqlval) (r : json) (p : plan) (t : tables)
  : tables :=
  Tables (knowledge t ++ [(s, plan_entity p, r)])
         (relabel (plan_entity p) (plan_label p) (labels t))
         (publications t)
         (connectivity_nodes t ++ map (node_row s (plan_entity p)) (plan_nodes p)).

(** The records of a snapshot applied in order to the image [t]; [None]
    when one of them raises. *)
Fixpoint apply_records (s : sqlval) (rs : list json) (t : tables)
  : option tables :=
  match rs with
  | [] => Some t
  | r :: rs' =>
      match record_plan r with
      | Ok p =>
          if knowledge_conflict s (plan_entity p) (knowledge t) then None
          else apply_records s rs' (apply_plan s r p t)
      | Raise _ => None
      end
  end.

(** The image after lines 119 to 121. *)
Definition delete_source (s : sqlval) (t : tables) : tables :=
  Tables (filter (other_source s) (knowledge t))
         (labels t)
         (filter (other_source s) (publications t))
         (filter (other_source s) (connectivity_nodes t)).

(** ** Properties of commands *)

(** The command never touches the committed image. *)
Definition keeps_disk {A} (m : M A) : Prop :=
  forall c r c', m c = (r, c') -> disk c' = disk c.

(** The command raises from every state. *)
Definition always_raises {A} (m : M A) : Prop :=
  forall c, exists e c', m c = (Raise e, c').

(* ------------------------------------------------------------------ *)
(** * Vocabulary of the statements *)

(** The connection after the rows of the nodes [new] were inserted for the
    entity [e]. *)
Definition add_node_rows (s e : sqlval) (new : list node) (c : connection)
  : connection :=
  Connection (disk c)
    (set_connectivity_nodes (fun rows => rows ++ map (node_row s e) new) (txn c)).

(** The image [restore] commits, computed without the connection. *)
Definition restore_image (snap : json) (store : tables) : option tables :=
  match py_getitem_str snap "source" with
  | Ok ks =>
      match sql_bind ks with
      | Ok s =>
          match rbind (py_getitem_str snap "knowledge") py_iter with
          | Ok rs => apply_records s rs (delete_source s store)
          | Raise _ => None
          end
      | Raise _ => None
      end
  | Raise _ => None
  end.

(** [saved_knowledge['source']] as SQLite receives it. *)
Definition snapshot_source (snap : json) : result sqlval :=
  rbind (py_getitem_str snap "source") sql_bind.

(** The records that the loop over [saved_knowledge['knowledge']] visits. *)
Definition snapshot_records (snap : json) : result (list json) :=
  rbind (py_getitem_str snap "knowledge") py_iter.

(** The rows that one record adds to each table. *)
Definition knowledge_row_of (s : sqlval) (r : json) (p : plan) : knowledge_row :=
  (s, plan_entity p, r).

(** The connectivity_nodes rows of one record. *)
Definition node_rows_of (s : sqlval) (p : plan) : list connectivity_row :=
  map (node_row s (plan_entity p)) (plan_nodes p).

(** The labels table after the [replace] of every record, in order. *)
Fixpoint relabel_all (ps : list plan) (rows : list label_row) : list label_row :=
  match ps with
  | [] => rows
  | p :: ps' => relabel_all ps' (relabel (plan_entity p) (plan_label p) rows)
  end.

(** No two nodes of the list are equal for Python. *)
Fixpoint distinct_nodes (ns : list node) : bool :=
  match ns with
  | [] => true
  | n :: ns' => negb (existsb (fun m => node_eqb m n) ns') && distinct_nodes ns'
  end.

(** [n] is one of the nodes of an edge of the record [r]. *)
Definition record_node (r : json) (n : node) : Prop :=
  exists connectivity edges edge nds nd,
    py_getitem_str r "connectivity" = Ok connectivity /\
    py_iter connectivity = Ok edges /\
    In edge edges /\ py_iter edge = Ok nds /\
    In nd nds /\ parse_node nd = Ok n.

(** The rows of [connectivity_nodes] that one record is responsible for:
    one row for each distinct node of its edges, attributed to it. *)
Definition record_node_rows (s : sqlval) (r : json)
  (rows : list connectivity_row) : Prop :=
  exists e ns,
    record_entity r = Ok e /\
    rows = map (node_row s e) ns /\
    distinct_nodes ns = true /\
    (forall n, In n ns -> record_node r n) /\
    (forall n, record_node r n -> set_mem n ns = true).

(** The plans of the records that have one. *)
Definition plans_of (rs : list json) : list plan :=
  flat_map (fun r => match record_plan r with Ok p => [p] | Raise _ => [] end) rs.

Definition with_labels (L : list label_row) (t : tables) : tables :=
  Tables (knowledge t) L (publications t) (connectivity_nodes t).

(** No record replaces the label of the entity [k]. *)
Definition not_relabelled (ps : list plan) (k : sqlval) : bool :=
  forallb (fun p => match plan_label p with
                    | Some _ => negb (sql_eq k (plan_entity p))
                    | None => true
                    end) ps.

(** A snapshot, as [extract] writes it on lines 92 to 99: the source of
    the store, a string, and for every knowledge row its payload, a dict,
    with the entity of the row written into it under [id]. *)
Record snapshot_record : Type := SnapshotRecord {
  record_id : string;
  record_fields : list (string * json)
}.

Record snapshot : Type := Snapshot {
  snapshot_name : string;
  snapshot_knowledge : list snapshot_record
}.

Definition json_of_record (r : snapshot_record) : json :=
  JObj (dict_set "id" (JStr (record_id r)) (record_fields r)).

(** The document in the file of the snapshot. *)
Definition json_of_snapshot (sn : snapshot) : json :=
  JObj [("source", JStr (snapshot_name sn));
        ("knowledge", JArr (map json_of_record (snapshot_knowledge sn)))].

Definition not_null (j : json) : bool :=
  match j with
  | JNull => false
  | _ => true
  end.

(** A record that carries a [label] does not have [null] as its [id]. *)
Definition labelled_id_not_null (r : json) : bool :=
  negb (py_contains_key "label" r) ||
  match py_getitem_str r "id" with
  | Ok id => not_null id
  | Raise _ => true
  end.

(** The [source] of the snapshot is not [null], and neither is the [id] of
    a record that carries a label. *)
Definition keys_not_null (snap : json) : bool :=
  match py_getitem_str snap "source" with
  | Ok ks => not_null ks
  | Raise _ => true
  end &&
  match snapshot_records snap with
  | Ok rs => forallb labelled_id_not_null rs
  | Raise _ => true
  end.

(** No two rows of the table are equal on (source, entity) for SQLite,
    which is what the unique index enforces; a NULL key is equal to no
    key. *)
Fixpoint unique_index (rows : list knowledge_row) : bool :=
  match rows with
  | [] => true
  | r :: rows' =>
      negb (knowledge_conflict (fst (fst r)) (snd (fst r)) rows') &&
      unique_index rows'
  end.

Definition unique_store (t : tables) : Prop :=
  unique_index (knowledge t) = true.

(** The command keeps the index valid in both images of the connection. *)
Definition keeps_unique {A} (m : M A) : Prop :=
  forall c r c',
    unique_store (disk c) -> unique_store (txn c) -> m c = (r, c') ->
    unique_store (disk c') /\ unique_store (txn c').

(** [store.source] as SQLite receives it. *)
Definition sql_of_source (source : option string) : sqlval :=
  match source with
  | Some x => SqlText x
  | None => SqlNull
  end.

(** The store without the knowledge and connectivity_nodes rows of the
    source: the image [load] commits on line 55. *)
Definition load_deleted (source : option string) (store : tables) : tables :=
  set_connectivity_nodes (filter (other_source (sql_of_source source)))
    (set_knowledge (filter (other_source (sql_of_source source))) store).

(** The knowledge rows of the source [s], as the table holds them. *)
Definition source_rows (s : string) (t : tables) : list knowledge_row :=
  filter (fun r => sql_eq (fst (fst r)) (SqlText s)) (knowledge t).

(** The same rows as [extract] receives them from its [select]. *)
Definition selected_rows (s : string) (t : tables) : list knowledge_row :=
  index_order row_entity (source_rows s t).

(** The row with its entity written into the payload as [id]. *)
Definition with_id (row : knowledge_row) : knowledge_row :=
  (fst (fst row), snd (fst row),
   match snd row with
   | JObj m => JObj (dict_set "id" (py_of_sql (snd (fst row))) m)
   | d => d
   end).

(** The row gives a record that [restore] accepts. *)
Definition restorable_row (row : knowledge_row) : bool :=
  match extract_row row with
  | Ok k => match record_plan k with Ok _ => true | Raise _ => false end
  | Raise _ => false
  end.

(** A [connectivity] member that Python cannot iterate over. *)
Definition not_iterable (j : json) : bool :=
  match j with
  | JNull | JBool _ | JInt _ => true
  | _ => false
  end.

(** The two connections refuse the same knowledge rows of the source [s]. *)
Definition same_conflicts (s : sqlval) (c1 c2 : connection) : Prop :=
  forall e, knowledge_conflict s e (knowledge (txn c1)) =
            knowledge_conflict s e (knowledge (txn c2)).

(** From two such connections the command ends alike and leaves two such
    connections. *)
Definition agrees {A} (s : sqlval) (m : M A) : Prop :=
  forall c1 c2, same_conflicts s c1 c2 ->
    fst (m c1) = fst (m c2) /\ same_conflicts s (snd (m c1)) (snd (m c2)).

(** The row belongs to the source named [s]. *)
Definition of_source {B C} (s : string) (r : sqlval * B * C) : bool :=
  sql_eq (fst (fst r)) (SqlText s).

(** No two rows of the labels table are equal on the entity for SQLite:
    the key on which [replace into labels] replaces a row. *)
Fixpoint labels_index (rows : list label_row) : bool :=
  match rows with
  | [] => true
  | r :: rows' =>
      negb (existsb (fun x => sql_eq (fst x) (fst r)) rows') &&
      labels_index rows'
  end.

(** The label rows of the entity [e]. *)
Definition labels_of (e : sqlval) (rows : list label_row) : list label_row :=
  filter (fun row => sql_eq (fst row) e) rows.

(** The key of the knowledge row that a record of a snapshot becomes. *)
Definition record_key (r : snapshot_record) : sqlval := SqlText (record_id r).

(** The snapshot with its records in the order of their ids. *)
Definition in_id_order (sn : snapshot) : snapshot :=
  Snapshot (snapshot_name sn) (index_order record_key (snapshot_knowledge sn)).

(** The snapshot that holds the record [r] alone. *)
Definition single_record (sn : snapshot) (r : snapshot_record) : snapshot :=
  Snapshot (snapshot_name sn) [r].

Definition is_object (j : json) : bool :=
  match j with
  | JObj _ => true
  | _ => false
  end.

(** The payload of the row is a JSON object. *)
Definition payload_is_object (row : knowledge_row) : bool := is_object (snd row).

(** [load] without [--save-json], followed by what [extract] makes of the
    store it left. *)
Definition then_extract
  (KnowledgeStore_read_only : option string -> tables -> result store_handle)
  (source : option string) (r : result (option (string * json)) * connection)
  : result (option (string * json)) * connection :=
  match r with
  | (Ok _, c) =>
      match extract KnowledgeStore_read_only source (disk c) with
      | (Ok saved, c') => (Ok (Some saved), c')
      | (Raise e, c') => (Raise e, c')
      end
  | (Raise e, c) => (Raise e, c)
  end.

(* ------------------------------------------------------------------ *)
(** * Stores, snapshots and remotes used as examples *)

Definition vagal_record : json :=
  JObj [("id", JStr "path:1"); ("label", JStr "Vagal pathway");
        ("connectivity",
         JArr [JArr [JArr [JStr "UBERON:1"; JArr []];
                     JArr [JStr "UBERON:2"; JArr []]]])].

Definition malformed_record : json :=
  JObj [("id", JStr "path:2"); ("connectivity", JInt 7)].

Definition malformed_snapshot : json :=
  JObj [("source", JStr "npo-2023");
        ("knowledge", JArr [vagal_record; malformed_record])].

Definition old_store : tables :=
  Tables [(SqlText "npo-2023", SqlText "path:0", JObj [("id", JStr "path:0")])]
         [(SqlText "path:0", SqlText "old")]
         [(SqlText "npo-2023", SqlText "path:0", SqlText "PMID:1")]
         [(SqlText "npo-2023", JArr [JStr "UBERON:9"; JArr []], SqlText "path:0")].

Definition shared_node : json :=
  JArr [JStr "UBERON:0001"; JArr [JStr "qualifierA"]].

Definition shared_node_snapshot : json :=
  JObj [("source", JStr "npo-2023");
        ("knowledge",
         JArr [JObj [("id", JStr "path:1");
                     ("connectivity", JArr [JArr [shared_node; shared_node];
                                            JArr [shared_node]])];
               JObj [("id", JStr "path:2");
                     ("connectivity", JArr [JArr [shared_node]])]])].

Definition null_id_document : json :=
  JObj [("source", JStr "npo-2023");
        ("knowledge", JArr [JObj [("id", JNull); ("label", JStr "Vagal pathway")]])].

Definition null_source_document : json :=
  JObj [("source", JNull);
        ("knowledge", JArr [JObj [("id", JStr "path:1")]])].

Definition references_snapshot : json :=
  JObj [("source", JStr "npo-2023");
        ("knowledge",
         JArr [JObj [("id", JStr "path:0"); ("references", JArr [JStr "PMID:123"])]])].

Definition scenario_snapshot : json :=
  JObj [("source", JStr "npo-2023");
        ("knowledge",
         JArr [JObj [("id", JStr "path:1");
                     ("label", JStr "Vagal pathway");
                     ("references", JArr [JStr "PMID:123"]);
                     ("connectivity",
                      JArr [JArr [JArr [JStr "UBERON:1"; JArr []];
                                  JArr [JStr "UBERON:2"; JArr []]]])]])].

(** A remote with two paths, whose records carry a label and no id. *)
Definition remote_paths : result (list string) := Ok ["path:1"; "path:2"].

Definition remote_entity_knowledge (path : string) (source : json) : M unit :=
  insert_knowledge source (JStr path) (JObj [("label", JStr path)]) ;;
  commit.

Definition remote_handle : result store_handle :=
  Ok (Handle true (Some "npo-2023")).

Definition open_read_only (arg_source : option string) (t : tables)
  : result store_handle :=
  Ok (Handle true
        (match arg_source with Some s => Some s | None => Some "npo-2023" end)).

Definition listed_sources (t : tables) : list string := ["npo-2023"].

Definition duplicate_id_snapshot : json :=
  JObj [("source", JStr "npo-2023");
        ("knowledge", JArr [JObj [("id", JStr "path:1")];
                            JObj [("id", JStr "path:1")]])].

Definition failing_entity_knowledge (path : string) (source : json) : M unit :=
  raise (External "RemoteUnavailableError").

(** The store after loading the two paths of the remote into an empty
    store, and the snapshot that [--save-json] writes. *)
Definition loaded_store : tables :=
  Tables [(SqlText "npo-2023", SqlText "path:1", JObj [("label", JStr "path:1")]);
          (SqlText "npo-2023", SqlText "path:2", JObj [("label", JStr "path:2")])]
         [] [] [].

Definition loaded_snapshot : json :=
  JObj [("source", JStr "npo-2023");
        ("knowledge",
         JArr [JObj [("label", JStr "path:1"); ("id", JStr "path:1")];
               JObj [("label", JStr "path:2"); ("id", JStr "path:2")]])].

(** A store with rows of two sources. *)
Definition mixed_store : tables :=
  Tables [(SqlText "sckan-old", SqlText "path:1", JObj [("id", JStr "path:1")]);
          (SqlText "npo-2023", SqlText "path:0", JObj [("id", JStr "path:0")]);
          (SqlText "sckan-old", SqlText "path:2", JObj [("id", JStr "path:2")])]
         [(SqlText "path:1", SqlText "old label"); (SqlText "path:0", SqlText "old")]
         [(SqlText "sckan-old", SqlText "path:1", SqlText "PMID:1")]
         [(SqlText "sckan-old", JArr [JStr "UBERON:9"; JArr []], SqlText "path:1");
          (SqlText "npo-2023", JArr [JStr "UBERON:9"; JArr []], SqlText "path:0")].

Definition relabel_typed_snapshot : snapshot :=
  Snapshot "npo-2023"
    [SnapshotRecord "path:1" [("label", JStr "new label")];
     SnapshotRecord "path:7" [("label", JStr "seventh")];
     SnapshotRecord "path:8" []].

Definition list_payload_store : tables :=
  Tables [(SqlText "npo-2023", SqlText "path:1", JObj [("label", JStr "one")]);
          (SqlText "npo-2023", SqlText "path:2", JArr [JStr "not a dict"])]
         [] [] [].

(** A store whose rows were not inserted in the order of their entities,
    one of them with a payload that carries an [id] that is not its
    entity. *)
Definition stale_id_store : tables :=
  Tables [(SqlText "npo-2023", SqlText "path:2", JObj [("label", JStr "two")]);
          (SqlText "npo-2023", SqlText "path:10", JObj [("label", JStr "ten")]);
          (SqlText "npo-2023", SqlText "path:1",
           JObj [("id", JStr "path:0"); ("label", JStr "one")])]
         [] [] [].

(** A snapshot whose records are not in the order of their ids. *)
Definition unordered_snapshot : snapshot :=
  Snapshot "npo-2023"
    [SnapshotRecord "path:2" [("label", JStr "two")];
     SnapshotRecord "path:10" [];
     SnapshotRecord "path:1" [("label", JStr "one")]].

(** A remote that cannot be reached when the paths are asked for. *)
Definition unavailable_paths : result (list string) :=
  Raise (External "RemoteUnavailableError").

(** [KnowledgeStore] finding neither a database nor a source. *)
Definition open_nothing (arg_source : option string) (t : tables)
  : result store_handle :=
  Ok (Handle false None).

(* ------------------------------------------------------------------ *)
(** * Reasoning about commands *)

(** The Python and SQLite primitives on small values. *)

Example py_True_is_1 : py_eqb (JBool true) (JInt 1) = true.
Proof. reflexivity. Qed.

Example py_iter_number : py_iter (JInt 7) = Raise TypeError.
Proof. reflexivity. Qed.

Example py_iter_dict :
  py_iter (JObj [("a", JInt 1); ("b", JNull)]) = Ok [JStr "a"; JStr "b"].
Proof. reflexivity. Qed.

Example py_index_string : py_getitem_int (JStr "ab") 1 = Ok (JStr "b").
Proof. reflexivity. Qed.

Example node_of_list_is_unhashable :
  parse_node (JArr [JArr [JStr "UBERON:1"]; JArr []]) = Raise TypeError.
Proof. reflexivity. Qed.

Example sql_null_is_not_null : sql_eq SqlNull SqlNull = false.
Proof. reflexivity. Qed.

Example index_order_of_values :
  index_order snd
    [(1, SqlText "b"); (2, SqlInt 5); (3, SqlNull); (4, SqlText "a");
     (5, SqlInt (-1)); (6, SqlNull); (7, SqlInt 10); (8, SqlText "B");
     (9, SqlText "a0")]%Z =
    [(3, SqlNull); (6, SqlNull); (5, SqlInt (-1)); (2, SqlInt 5);
     (7, SqlInt 10); (8, SqlText "B"); (4, SqlText "a"); (9, SqlText "a0");
     (1, SqlText "b")]%Z.
Proof. reflexivity. Qed.

Example sql_bind_big_int : sql_bind (JInt (2 ^ 63)) = Raise OverflowError.
Proof. reflexivity. Qed.

Example publications_statement_does_not_compile :
  prepare_insert publications_columns publications_placeholders =
  Raise OperationalError.
Proof. reflexivity. Qed.

Example dict_set_keeps_position :
  dict_set "id" (JStr "x") [("id", JNull); ("label", JStr "l")] =
  [("id", JStr "x"); ("label", JStr "l")].
Proof. reflexivity. Qed.

(** ** Commands that leave the committed image alone *)

Lemma keeps_disk_ret {A} (a : A) : keeps_disk (ret a).
Proof. intros c r c' H. inversion H. reflexivity. Qed.

Lemma keeps_disk_raise {A} e : keeps_disk (@raise A e).
Proof. intros c r c' H. inversion H. reflexivity. Qed.

Lemma keeps_disk_lift {A} (x : result A) : keeps_disk (lift x).
Proof. intros c r c' H. inversion H. reflexivity. Qed.

Lemma keeps_disk_update f : keeps_disk (update f).
Proof. intros c r c' H. inversion H. reflexivity. Qed.

Lemma keeps_disk_bind {A B} (m : M A) (k : A -> M B) :
  keeps_disk m -> (forall a, keeps_disk (k a)) -> keeps_disk (bind m k).
Proof.
  intros Hm Hk c r c' H. unfold bind in H.
  destruct (m c) as [[a|e] c1] eqn:E.
  - rewrite (Hk a _ _ _ H). exact (Hm _ _ _ E).
  - inversion H; subst. exact (Hm _ _ _ E).
Qed.

Lemma keeps_disk_if {A} (b : bool) (m1 m2 : M A) :
  keeps_disk m1 -> keeps_disk m2 -> keeps_disk (if b then m1 else m2).
Proof. destruct b; auto. Qed.

Lemma keeps_disk_for_each {A} (body : A -> M unit) l :
  (forall x, keeps_disk (body x)) -> keeps_disk (for_each body l).
Proof.
  intros Hb. induction l as [|x l IH]; simpl.
  - apply keeps_disk_ret.
  - apply keeps_disk_bind; auto.
Qed.

Lemma keeps_disk_for_each_with {A S} (body : S -> A -> M S) l :
  (forall s x, keeps_disk (body s x)) ->
  forall s, keeps_disk (for_each_with body s l).
Proof.
  intros Hb. induction l as [|x l IH]; intros s; simpl.
  - apply keeps_disk_ret.
  - apply keeps_disk_bind; auto.
Qed.

Create HintDb disk.
#[local] Hint Resolve keeps_disk_ret keeps_disk_raise keeps_disk_lift
  keeps_disk_update keeps_disk_bind keeps_disk_if keeps_disk_for_each
  keeps_disk_for_each_with : disk.

Ltac keeps_disk :=
  repeat match goal with
  | |- keeps_disk (ret _) => apply keeps_disk_ret
  | |- keeps_disk (raise _) => apply keeps_disk_raise
  | |- keeps_disk (lift _) => apply keeps_disk_lift
  | |- keeps_disk (update _) => apply keeps_disk_update
  | |- keeps_disk (bind _ _) => apply keeps_disk_bind; [| intros ?]
  | |- keeps_disk (if _ then _ else _) => apply keeps_disk_if
  | |- keeps_disk (for_each _ _) => apply keeps_disk_for_each; intros ?
  | |- keeps_disk (for_each_with _ _ _) =>
      apply keeps_disk_for_each_with; intros ? ?
  end.

Lemma keeps_disk_delete_knowledge ks : keeps_disk (delete_knowledge ks).
Proof. unfold delete_knowledge. keeps_disk. Qed.

Lemma keeps_disk_delete_connectivity_nodes ks :
  keeps_disk (delete_connectivity_nodes ks).
Proof. unfold delete_connectivity_nodes. keeps_disk. Qed.

Lemma keeps_disk_clean_connectivity ks : keeps_disk (clean_connectivity ks).
Proof. unfold clean_connectivity. keeps_disk. Qed.

Lemma keeps_disk_insert_knowledge ks e d :
  keeps_disk (insert_knowledge ks e d).
Proof.
  unfold insert_knowledge. keeps_disk.
  intros c r c' H.
  destruct (knowledge_conflict _ _ _); inversion H; reflexivity.
Qed.

Lemma keeps_disk_replace_label e l : keeps_disk (replace_label e l).
Proof. unfold replace_label. keeps_disk. Qed.

Lemma keeps_disk_delete_publications ks e :
  keeps_disk (delete_publications ks e).
Proof. unfold delete_publications. keeps_disk. Qed.

Lemma keeps_disk_insert_publications rows :
  keeps_disk (insert_publications rows).
Proof.
  unfold insert_publications, insert_publication. keeps_disk.
  destruct a0 as [|? [|? [|? [|? ?]]]]; keeps_disk.
Qed.

Lemma keeps_disk_insert_connectivity_node ks n e :
  keeps_disk (insert_connectivity_node ks n e).
Proof. unfold insert_connectivity_node. keeps_disk. Qed.

#[local] Hint Resolve keeps_disk_delete_knowledge
  keeps_disk_delete_connectivity_nodes keeps_disk_clean_connectivity
  keeps_disk_insert_knowledge keeps_disk_replace_label
  keeps_disk_delete_publications keeps_disk_insert_publications
  keeps_disk_insert_connectivity_node : disk.

Lemma keeps_disk_restore_node ks e seen nd :
  keeps_disk (restore_node ks e seen nd).
Proof. unfold restore_node. keeps_disk; auto with disk. Qed.

Lemma keeps_disk_restore_edge ks e seen edge :
  keeps_disk (restore_edge ks e seen edge).
Proof.
  unfold restore_edge. keeps_disk. apply keeps_disk_restore_node.
Qed.

Lemma keeps_disk_restore_record ks r : keeps_disk (restore_record ks r).
Proof.
  unfold restore_record. keeps_disk; auto with disk.
  apply keeps_disk_restore_edge.
Qed.

Lemma keeps_disk_restore_rows snap : keeps_disk (restore_rows snap).
Proof.
  unfold restore_rows. keeps_disk; auto with disk.
  apply keeps_disk_restore_record.
Qed.

(** [restore] either raises before its commit, or commits the image its
    statements built. *)
Lemma restore_cases snap store :
  (exists e c, restore_rows snap (connect store) = (Raise e, c) /\
               restore snap store = (Raise e, c) /\ disk c = store) \/
  (exists c, restore_rows snap (connect store) = (Ok tt, c) /\
             restore snap store = (Ok tt, Connection (txn c) (txn c)) /\
             disk c = store).
Proof.
  unfold restore, restore_cmd, bind.
  destruct (restore_rows snap (connect store)) as [[[]|e] c] eqn:E.
  - right. exists c. repeat split.
    exact (keeps_disk_restore_rows snap _ _ _ E).
  - left. exists e, c. repeat split.
    exact (keeps_disk_restore_rows snap _ _ _ E).
Qed.

(** ** Commands that raise *)

Lemma raises_bind_l {A B} (m : M A) (k : A -> M B) :
  always_raises m -> always_raises (bind m k).
Proof.
  intros H c. destruct (H c) as (e & c' & E).
  exists e, c'. unfold bind. rewrite E. reflexivity.
Qed.

Lemma raises_bind_r {A B} (m : M A) (k : A -> M B) :
  (forall a, always_raises (k a)) -> always_raises (bind m k).
Proof.
  intros H c. unfold bind. destruct (m c) as [[a|e] c1].
  - apply H.
  - exists e, c1. reflexivity.
Qed.

Lemma raises_bind_lift {A B} (x : result A) (k : A -> M B) :
  (forall a, x = Ok a -> always_raises (k a)) -> always_raises (bind (lift x) k).
Proof.
  intros H c. unfold bind, lift. destruct x as [a|e].
  - apply H. reflexivity.
  - exists e, c. reflexivity.
Qed.

Lemma raises_for_each {A} (body : A -> M unit) l x :
  In x l -> always_raises (body x) -> always_raises (for_each body l).
Proof.
  intros Hin Hx. induction l as [|y l IH]; simpl in *.
  - contradiction.
  - destruct Hin as [-> | Hin].
    + apply raises_bind_l. exact Hx.
    + apply raises_bind_r. intros _. apply IH. exact Hin.
Qed.

(** The publications statement names three columns and two values. *)
Lemma insert_publications_raises rows : always_raises (insert_publications rows).
Proof.
  intros c. exists OperationalError, c. reflexivity.
Qed.

Lemma restore_record_references_raises ks r :
  py_contains_key "references" r = true ->
  always_raises (restore_record ks r).
Proof.
  intros Hrefs. unfold restore_record.
  apply raises_bind_r; intros entity.
  apply raises_bind_r; intros _.
  apply raises_bind_r; intros _.
  apply raises_bind_l. rewrite Hrefs.
  apply raises_bind_r; intros _.
  apply raises_bind_r; intros refs.
  apply insert_publications_raises.
Qed.

Lemma restore_rows_references_raises snap saved records r :
  py_getitem_str snap "knowledge" = Ok saved ->
  py_iter saved = Ok records ->
  In r records ->
  py_contains_key "references" r = true ->
  always_raises (restore_rows snap).
Proof.
  intros Hk Hi Hin Hrefs. unfold restore_rows.
  apply raises_bind_r; intros ks.
  apply raises_bind_r; intros _.
  apply raises_bind_r; intros _.
  apply raises_bind_r; intros _.
  apply raises_bind_lift; intros saved' E.
  rewrite Hk in E. injection E as <-.
  apply raises_bind_lift; intros records' E.
  rewrite Hi in E. injection E as <-.
  apply raises_for_each with (x := r); [exact Hin|].
  apply restore_record_references_raises. exact Hrefs.
Qed.

(* ------------------------------------------------------------------ *)
(** * Restore is all or nothing *)

(** C5.  Whatever the store holds and whatever the snapshot is, a restore
    that raises (a malformed record part-way through the list, for one)
    leaves the store as it was before the attempt: no row written before
    the failure stays. *)
Theorem restore_failure_keeps_store :
  forall (snap : json) (store : tables) (e : exn),
    outcome (restore snap store) = Raise e ->
    stored (restore snap store) = store.
Proof.
  intros snap store e H.
  destruct (restore_cases snap store) as [(e' & c & _ & E & D) | (c & _ & E & _)].
  - unfold stored. rewrite E. exact D.
  - unfold outcome in H. rewrite E in H. discriminate.
Qed.

Lemma restore_failure_keeps_store_witness :
  outcome (restore malformed_snapshot old_store) = Raise TypeError /\
  stored (restore malformed_snapshot old_store) = old_store.
Proof.
  split.
  - vm_compute. reflexivity.
  - apply (restore_failure_keeps_store malformed_snapshot old_store TypeError).
    vm_compute. reflexivity.
Defined.

Lemma restore_record_connectivity_raises ks r cn :
  py_getitem_str r "connectivity" = Ok cn ->
  not_iterable cn = true ->
  always_raises (restore_record ks r).
Proof.
  intros Hg Hn. unfold restore_record.
  apply raises_bind_r; intros entity.
  apply raises_bind_r; intros _.
  apply raises_bind_r; intros _.
  apply raises_bind_r; intros _.
  assert (Hc : py_contains_key "connectivity" r = true).
  { unfold py_contains_key, py_getitem_str in *. destruct r; try discriminate.
    destruct (dict_lookup "connectivity" members); [reflexivity | discriminate]. }
  rewrite Hc, Hg. intros c. exists TypeError, c.
  destruct cn; try discriminate; reflexivity.
Qed.

(** A record whose [connectivity] is not a list stops the restore wherever
    it stands in the snapshot, and the store stays as it was. *)
Lemma restore_malformed_connectivity snap store rs r cn :
  snapshot_records snap = Ok rs ->
  In r rs ->
  py_getitem_str r "connectivity" = Ok cn ->
  not_iterable cn = true ->
  (exists e, outcome (restore snap store) = Raise e) /\
  stored (restore snap store) = store.
Proof.
  intros Hr Hin Hg Hn.
  assert (R : always_raises (restore_rows snap)).
  { unfold restore_rows, snapshot_records in *.
    apply raises_bind_r; intros ks.
    apply raises_bind_r; intros _.
    apply raises_bind_r; intros _.
    apply raises_bind_r; intros _.
    apply raises_bind_lift; intros saved E. rewrite E in Hr. simpl in Hr.
    apply raises_bind_lift; intros rs' E'. rewrite Hr in E'.
    injection E' as <-.
    apply raises_for_each with (x := r); [exact Hin|].
    exact (restore_record_connectivity_raises ks r cn Hg Hn). }
  destruct (R (connect store)) as (e & c & E).
  destruct (restore_cases snap store) as [(e' & c' & E1 & E2 & D) | (c' & E1 & _)].
  - split.
    + exists e'. unfold outcome. rewrite E2. reflexivity.
    + unfold stored. rewrite E2. exact D.
  - rewrite E in E1. discriminate.
Qed.

(* ------------------------------------------------------------------ *)
(** * What [restore] writes *)

Lemma add_node_rows_nil s e c : add_node_rows s e [] c = c.
Proof.
  destruct c as [d [k l p n]]. unfold add_node_rows, set_connectivity_nodes.
  simpl. rewrite app_nil_r. reflexivity.
Qed.

Lemma add_node_rows_app s e new1 new2 c :
  add_node_rows s e new2 (add_node_rows s e new1 c) =
  add_node_rows s e (new1 ++ new2) c.
Proof.
  unfold add_node_rows, set_connectivity_nodes. simpl.
  rewrite map_app, app_assoc. reflexivity.
Qed.

Lemma restore_node_run ks ej s e seen nd c :
  sql_bind ks = Ok s -> sql_bind ej = Ok e ->
  restore_node ks ej seen nd c =
  match parse_node nd with
  | Raise x => (Raise x, c)
  | Ok n =>
      if set_mem n seen then (Ok seen, c)
      else (Ok (seen ++ [n]), add_node_rows s e [n] c)
  end.
Proof.
  intros Hs He. unfold restore_node, parse_node, bind, lift.
  destruct (py_getitem_int nd 0) as [t|x]; simpl; [|reflexivity].
  destruct (py_getitem_int nd 1) as [q|x]; simpl; [|reflexivity].
  destruct (py_iter q) as [qs|x]; simpl; [|reflexivity].
  destruct (node_hashable (Node t qs)) as [[]|x]; simpl; [|reflexivity].
  destruct (set_mem (Node t qs) seen); [reflexivity|].
  unfold insert_connectivity_node, bind, lift. simpl.
  rewrite Hs, He. reflexivity.
Qed.

Lemma restore_nodes_run ks ej s e :
  sql_bind ks = Ok s -> sql_bind ej = Ok e ->
  forall nds seen c,
  exists c',
    for_each_with (restore_node ks ej) seen nds c = (see_nodes seen nds, c') /\
    forall seen', see_nodes seen nds = Ok seen' ->
      exists new, seen' = seen ++ new /\ c' = add_node_rows s e new c.
Proof.
  intros Hs He. induction nds as [|nd nds IH]; intros seen c; simpl.
  - exists c. split; [reflexivity|].
    intros seen' E. injection E as <-. exists [].
    rewrite app_nil_r, add_node_rows_nil. split; reflexivity.
  - unfold bind. rewrite (restore_node_run ks ej s e seen nd c Hs He).
    unfold see_node. destruct (parse_node nd) as [n|x]; simpl.
    + destruct (set_mem n seen) eqn:Em.
      * destruct (IH seen c) as (c' & E & H). exists c'. split; [exact E|].
        exact H.
      * destruct (IH (seen ++ [n]) (add_node_rows s e [n] c)) as (c' & E & H).
        exists c'. split; [exact E|].
        intros seen' Es. destruct (H seen' Es) as (new & -> & ->).
        exists (n :: new). rewrite <- app_assoc. simpl.
        rewrite add_node_rows_app. split; reflexivity.
    + exists c. split; [reflexivity|]. discriminate.
Qed.

Lemma restore_edges_run ks ej s e :
  sql_bind ks = Ok s -> sql_bind ej = Ok e ->
  forall edges seen c,
  exists c',
    for_each_with (restore_edge ks ej) seen edges c = (see_edges seen edges, c') /\
    forall seen', see_edges seen edges = Ok seen' ->
      exists new, seen' = seen ++ new /\ c' = add_node_rows s e new c.
Proof.
  intros Hs He. induction edges as [|edge edges IH]; intros seen c; simpl.
  - exists c. split; [reflexivity|].
    intros seen' E. injection E as <-. exists [].
    rewrite app_nil_r, add_node_rows_nil. split; reflexivity.
  - unfold bind at 1. unfold restore_edge at 1. unfold see_edge, bind, lift.
    destruct (py_iter edge) as [nds|x]; simpl.
    + destruct (restore_nodes_run ks ej s e Hs He nds seen c) as (c1 & E1 & H1).
      rewrite E1. destruct (see_nodes seen nds) as [seen1|x]; simpl.
      * destruct (H1 seen1 eq_refl) as (new1 & -> & ->).
        destruct (IH (seen ++ new1) (add_node_rows s e new1 c)) as (c' & E & H).
        exists c'. split; [exact E|].
        intros seen' Es. destruct (H seen' Es) as (new & -> & ->).
        exists (new1 ++ new). rewrite app_assoc, add_node_rows_app.
        split; reflexivity.
      * exists c1. split; [reflexivity|]. discriminate.
    + exists c. split; [reflexivity|]. discriminate.
Qed.

Lemma connection_eta c : Connection (disk c) (txn c) = c.
Proof. destruct c. reflexivity. Qed.

Lemma tables_eta t :
  Tables (knowledge t) (labels t) (publications t) (connectivity_nodes t) = t.
Proof. destruct t. reflexivity. Qed.

Lemma label_part_run r idj e c :
  sql_bind idj = Ok e ->
  (if py_contains_key "label" r
   then label <- lift (py_getitem_str r "label") ;; replace_label idj label
   else ret tt) c =
  match record_label r with
  | Ok l => (Ok tt, Connection (disk c) (set_labels (relabel e l) (txn c)))
  | Raise x => (Raise x, c)
  end.
Proof.
  intros He. unfold record_label.
  destruct (py_contains_key "label" r).
  - unfold bind, lift.
    destruct (py_getitem_str r "label") as [l|x]; simpl; [|reflexivity].
    unfold replace_label, bind, lift. simpl. rewrite He.
    destruct (sql_bind l); simpl; reflexivity.
  - unfold ret, set_labels. simpl. rewrite tables_eta, connection_eta.
    reflexivity.
Qed.

Lemma connectivity_part_run ks ej s e r c :
  sql_bind ks = Ok s -> sql_bind ej = Ok e ->
  exists c',
    (if py_contains_key "connectivity" r then
       connectivity <- lift (py_getitem_str r "connectivity") ;;
       edges <- lift (py_iter connectivity) ;;
       for_each_with (restore_edge ks ej) [] edges ;;
       ret tt
     else ret tt) c =
    (match record_nodes r with Ok _ => Ok tt | Raise x => Raise x end, c') /\
    forall ns, record_nodes r = Ok ns -> c' = add_node_rows s e ns c.
Proof.
  intros Hs He. unfold record_nodes.
  destruct (py_contains_key "connectivity" r).
  - unfold bind at 1. unfold lift at 1.
    destruct (py_getitem_str r "connectivity") as [cn|x]; simpl.
    2: { exists c. split; [reflexivity | discriminate]. }
    unfold bind at 1. unfold lift at 1.
    destruct (py_iter cn) as [edges|x]; simpl.
    2: { exists c. split; [reflexivity | discriminate]. }
    destruct (restore_edges_run ks ej s e Hs He edges [] c) as (c' & E & H).
    unfold bind. rewrite E.
    destruct (see_edges [] edges) as [seen|x]; simpl.
    + exists c'. split; [reflexivity|].
      intros ns Ens. destruct (H ns Ens) as (new & -> & ->). reflexivity.
    + exists c'. split; [reflexivity | discriminate].
  - exists c. split; [reflexivity|].
    intros ns E. injection E as <-. symmetry. apply add_node_rows_nil.
Qed.

Lemma insert_knowledge_run ks idj s e r c :
  sql_bind ks = Ok s -> sql_bind idj = Ok e ->
  insert_knowledge ks idj r c =
  if knowledge_conflict s e (knowledge (txn c)) then (Raise IntegrityError, c)
  else (Ok tt, Connection (disk c)
                 (set_knowledge (fun rows => rows ++ [(s, e, r)]) (txn c))).
Proof.
  intros Hs He. unfold insert_knowledge, bind, lift. simpl.
  rewrite Hs, He. reflexivity.
Qed.

Lemma restore_record_run ks s r c :
  sql_bind ks = Ok s ->
  match record_plan r with
  | Ok p =>
      if knowledge_conflict s (plan_entity p) (knowledge (txn c))
      then exists x c', restore_record ks r c = (Raise x, c')
      else restore_record ks r c =
           (Ok tt, Connection (disk c) (apply_plan s r p (txn c)))
  | Raise _ => exists x c', restore_record ks r c = (Raise x, c')
  end.
Proof.
  intros Hs.
  remember (restore_record ks r c) as R eqn:ER.
  assert (Hraise : forall x c', R = (Raise x, c') ->
                   exists x c', R = (Raise x, c')) by eauto.
  unfold restore_record in ER. unfold bind at 1 in ER. unfold lift at 1 in ER.
  unfold record_plan, record_entity.
  destruct (py_getitem_str r "id") as [idj|x] eqn:Eid; simpl.
  2: { eapply Hraise, ER. }
  unfold bind at 1 in ER.
  destruct (sql_bind idj) as [e|x] eqn:Ee; simpl.
  2: { unfold insert_knowledge, bind, lift in ER. simpl in ER.
       rewrite Hs, Ee in ER. eapply Hraise, ER. }
  rewrite (insert_knowledge_run ks idj s e r c Hs Ee) in ER.
  destruct (knowledge_conflict s e (knowledge (txn c))) eqn:Ec.
  { destruct (record_label r) as [l|x]; simpl; [|eapply Hraise, ER].
    destruct (py_contains_key "references" r); [eapply Hraise, ER|].
    destruct (record_nodes r); simpl; [rewrite Ec|]; eapply Hraise, ER. }
  unfold bind at 1 in ER. rewrite (label_part_run r idj e _ Ee) in ER.
  destruct (record_label r) as [l|x]; simpl.
  2: { eapply Hraise, ER. }
  destruct (py_contains_key "references" r) eqn:Er.
  { unfold bind at 1 in ER. unfold bind at 1 in ER.
    unfold delete_publications, bind, lift in ER. rewrite Hs, Ee in ER.
    simpl in ER.
    destruct (py_iter _); simpl in ER; eapply Hraise, ER. }
  unfold bind at 1 in ER. unfold ret at 1 in ER.
  match type of ER with
  | context [ (if py_contains_key "connectivity" r then _ else _) ?c0 ] =>
      destruct (connectivity_part_run ks idj s e r c0 Hs Ee) as (c' & E & H)
  end.
  rewrite E in ER. destruct (record_nodes r) as [ns|x]; simpl.
  - rewrite Ec. rewrite (H ns eq_refl) in ER. exact ER.
  - eapply Hraise, ER.
Qed.

Lemma restore_records_run ks s :
  sql_bind ks = Ok s ->
  forall rs c,
  match apply_records s rs (txn c) with
  | Some t' => for_each (restore_record ks) rs c = (Ok tt, Connection (disk c) t')
  | None => exists x c', for_each (restore_record ks) rs c = (Raise x, c')
  end.
Proof.
  intros Hs. induction rs as [|r rs IH]; intros c; simpl.
  - unfold ret. rewrite connection_eta. reflexivity.
  - pose proof (restore_record_run ks s r c Hs) as H.
    unfold bind. destruct (record_plan r) as [p|x].
    + destruct (knowledge_conflict s (plan_entity p) (knowledge (txn c))).
      * destruct H as (x & c' & ->). eauto.
      * rewrite H. apply (IH (Connection (disk c) (apply_plan s r p (txn c)))).
    + destruct H as (x0 & c' & ->). eauto.
Qed.

Lemma filter_twice {A} (f : A -> bool) l : filter f (filter f l) = filter f l.
Proof.
  induction l as [|a l IH]; simpl; [reflexivity|].
  destruct (f a) eqn:E; simpl; [rewrite E, IH|]; auto.
Qed.

Lemma restore_run snap store :
  match restore_image snap store with
  | Some t' => restore snap store = (Ok tt, Connection t' t')
  | None => exists x c', restore snap store = (Raise x, c')
  end.
Proof.
  unfold restore_image, restore, restore_cmd.
  remember (restore_rows snap (connect store)) as R eqn:ER.
  assert (Hraise : forall x c', R = (Raise x, c') ->
     exists x0 c0, bind (fun _ => R) (fun _ => commit) (connect store) = (Raise x0, c0)).
  { intros x c' ->. unfold bind. eauto. }
  assert (Hb : bind (restore_rows snap) (fun _ => commit) (connect store) =
               bind (fun _ => R) (fun _ => commit) (connect store)).
  { unfold bind. rewrite ER. reflexivity. }
  rewrite Hb. clear Hb.
  unfold restore_rows in ER. unfold bind at 1 in ER. unfold lift at 1 in ER.
  destruct (py_getitem_str snap "source") as [ks|x]; [|eapply Hraise, ER].
  unfold bind at 1 in ER. unfold clean_connectivity at 1 in ER.
  unfold bind at 1 in ER. unfold lift at 1 in ER.
  destruct (sql_bind ks) as [s|x] eqn:Es; [|eapply Hraise, ER].
  unfold update at 1 in ER.
  unfold bind at 1 in ER. unfold delete_knowledge at 1 in ER.
  unfold bind at 1 in ER. unfold lift at 1 in ER. rewrite Es in ER.
  unfold update at 1 in ER.
  unfold bind at 1 in ER. unfold delete_connectivity_nodes at 1 in ER.
  unfold bind at 1 in ER. unfold lift at 1 in ER. rewrite Es in ER.
  unfold update at 1 in ER.
  unfold bind at 1 in ER. unfold lift at 1 in ER.
  destruct (py_getitem_str snap "knowledge") as [saved|x]; simpl;
    [|eapply Hraise, ER].
  unfold bind at 1 in ER. unfold lift at 1 in ER.
  destruct (py_iter saved) as [rs|x]; simpl; [|eapply Hraise, ER].
  unfold set_connectivity_nodes, set_knowledge in ER. simpl in ER.
  rewrite !filter_twice in ER. fold (delete_source s store) in ER.
  match type of ER with
  | R = for_each _ _ ?c0 => pose proof (restore_records_run ks s Es rs c0) as H
  end.
  simpl in H.
  destruct (apply_records s rs (delete_source s store)) as [t'|].
  - rewrite H in ER. rewrite ER. reflexivity.
  - destruct H as (x & c' & H). rewrite H in ER. eapply Hraise, ER.
Qed.

Lemma restore_ok_image snap store :
  outcome (restore snap store) = Ok tt ->
  exists t', restore_image snap store = Some t' /\
             restore snap store = (Ok tt, Connection t' t').
Proof.
  intros H. pose proof (restore_run snap store) as R.
  destruct (restore_image snap store) as [t'|].
  - exists t'. split; [reflexivity | exact R].
  - destruct R as (x & c' & R). unfold outcome in H. rewrite R in H.
    discriminate.
Qed.

Lemma restore_image_some snap store t' :
  restore_image snap store = Some t' ->
  exists s rs, snapshot_source snap = Ok s /\ snapshot_records snap = Ok rs /\
               apply_records s rs (delete_source s store) = Some t'.
Proof.
  unfold restore_image, snapshot_source, snapshot_records.
  destruct (py_getitem_str snap "source") as [ks|]; simpl; [|discriminate].
  destruct (sql_bind ks) as [s|]; [|discriminate].
  destruct (rbind (py_getitem_str snap "knowledge") py_iter) as [rs|];
    [|discriminate].
  intros H. exists s, rs. auto.
Qed.

Lemma apply_records_some s rs : forall t t',
  apply_records s rs t = Some t' ->
  exists ps,
    Forall2 (fun r p => record_plan r = Ok p) rs ps /\
    knowledge t' = knowledge t ++ map (fun rp => knowledge_row_of s (fst rp) (snd rp)) (combine rs ps) /\
    labels t' = relabel_all ps (labels t) /\
    publications t' = publications t /\
    connectivity_nodes t' = connectivity_nodes t ++ flat_map (node_rows_of s) ps.
Proof.
  induction rs as [|r rs IH]; intros t t' H; simpl in H.
  - injection H as <-. exists []. simpl. rewrite !app_nil_r.
    repeat split. constructor.
  - destruct (record_plan r) as [p|] eqn:Ep; [|discriminate].
    destruct (knowledge_conflict s (plan_entity p) (knowledge t)); [discriminate|].
    destruct (IH _ _ H) as (ps & F & K & L & P & N).
    exists (p :: ps). simpl in *. repeat split.
    + constructor; assumption.
    + rewrite K, <- app_assoc. reflexivity.
    + exact L.
    + exact P.
    + rewrite N, <- app_assoc. reflexivity.
Qed.

(* ------------------------------------------------------------------ *)
(** * The nodes of a record *)

Lemma distinct_nodes_snoc seen n :
  distinct_nodes (seen ++ [n]) = distinct_nodes seen && negb (set_mem n seen).
Proof.
  induction seen as [|x seen IH]; simpl.
  - reflexivity.
  - rewrite IH, existsb_app. simpl. unfold set_mem.
    destruct (existsb (fun m => node_eqb m x) seen), (node_eqb n x),
      (distinct_nodes seen), (existsb (node_eqb n) seen); reflexivity.
Qed.

Lemma py_eqb_refl j : py_hashable j = Ok tt -> py_eqb j j = true.
Proof.
  destruct j; simpl; intros H; try discriminate; try reflexivity.
  - apply Bool.eqb_reflx.
  - apply Z.eqb_refl.
  - apply String.eqb_refl.
Qed.

Lemma py_list_eqb_refl l : hashable_all l = Ok tt -> py_list_eqb l l = true.
Proof.
  induction l as [|j l IH]; simpl; intros H; [reflexivity|].
  destruct (py_hashable j) as [[]|] eqn:E; simpl in H; [|discriminate].
  rewrite (py_eqb_refl j E), (IH H). reflexivity.
Qed.

Lemma parse_node_eqb_refl nd n : parse_node nd = Ok n -> node_eqb n n = true.
Proof.
  unfold parse_node. 
  destruct (py_getitem_int nd 0) as [t|]; simpl; [|discriminate].
  destruct (py_getitem_int nd 1) as [q|]; simpl; [|discriminate].
  destruct (py_iter q) as [qs|]; simpl; [|discriminate].
  destruct (node_hashable (Node t qs)) as [[]|] eqn:E; simpl; [|discriminate].
  intros H. injection H as <-. unfold node_hashable in E. simpl in E.
  destruct (py_hashable t) as [[]|] eqn:Et; simpl in E; [|discriminate].
  unfold node_eqb. simpl.
  rewrite (py_eqb_refl t Et), (py_list_eqb_refl qs E). reflexivity.
Qed.

Lemma set_mem_app n l1 l2 : set_mem n (l1 ++ l2) = set_mem n l1 || set_mem n l2.
Proof. apply existsb_app. Qed.

(** What the node loop leaves in [seen_nodes]. *)
Lemma see_nodes_spec nds : forall seen seen',
  see_nodes seen nds = Ok seen' ->
  exists new,
    seen' = seen ++ new /\
    (distinct_nodes seen = true -> distinct_nodes seen' = true) /\
    (forall n, In n new -> exists nd, In nd nds /\ parse_node nd = Ok n) /\
    (forall nd, In nd nds ->
       exists n, parse_node nd = Ok n /\ set_mem n seen' = true).
Proof.
  induction nds as [|nd nds IH]; intros seen seen' H; simpl in H.
  - injection H as <-. exists []. rewrite app_nil_r.
    repeat split; auto; intros ? [].
  - unfold see_node in H. destruct (parse_node nd) as [n|] eqn:En; simpl in H;
      [|discriminate].
    destruct (IH _ _ H) as (new & -> & D & S & C).
    destruct (set_mem n seen) eqn:Em.
    + exists new. repeat split; auto.
      * intros x Hx. destruct (S x Hx) as (nd' & ? & ?). exists nd'.
        split; [right|]; assumption.
      * intros nd' [<- | Hin].
        -- exists n. split; [exact En|]. rewrite set_mem_app, Em. reflexivity.
        -- apply C. exact Hin.
    + exists (n :: new). rewrite <- app_assoc in *. simpl in *.
      repeat split; auto.
      * intros Hd. apply D. rewrite distinct_nodes_snoc, Hd, Em. reflexivity.
      * intros x [<- | Hx].
        -- exists nd. split; [left; reflexivity | exact En].
        -- destruct (S x Hx) as (nd' & ? & ?). exists nd'.
           split; [right|]; assumption.
      * intros nd' [<- | Hin].
        -- exists n. split; [exact En|]. rewrite set_mem_app. simpl.
           unfold set_mem at 2. simpl.
           rewrite (parse_node_eqb_refl nd n En).
           destruct (set_mem n seen); reflexivity.
        -- apply C. exact Hin.
Qed.

Lemma see_edges_spec edges : forall seen seen',
  see_edges seen edges = Ok seen' ->
  exists new,
    seen' = seen ++ new /\
    (distinct_nodes seen = true -> distinct_nodes seen' = true) /\
    (forall n, In n new ->
       exists edge nds nd, In edge edges /\ py_iter edge = Ok nds /\
                           In nd nds /\ parse_node nd = Ok n) /\
    (forall edge, In edge edges ->
       exists nds, py_iter edge = Ok nds /\
       forall nd, In nd nds ->
         exists n, parse_node nd = Ok n /\ set_mem n seen' = true).
Proof.
  induction edges as [|edge edges IH]; intros seen seen' H; simpl in H.
  - injection H as <-. exists []. rewrite app_nil_r.
    repeat split; auto; intros ? [].
  - unfold see_edge in H. destruct (py_iter edge) as [nds|] eqn:Ei; simpl in H;
      [|discriminate].
    destruct (see_nodes seen nds) as [seen1|] eqn:E1; simpl in H; [|discriminate].
    destruct (see_nodes_spec nds seen seen1 E1) as (new1 & -> & D1 & S1 & C1).
    destruct (IH _ _ H) as (new & -> & D & S & C).
    exists (new1 ++ new). rewrite app_assoc. repeat split; auto.
    + intros x Hx. apply in_app_or in Hx. destruct Hx as [Hx | Hx].
      * destruct (S1 x Hx) as (nd & ? & ?). exists edge, nds, nd.
        repeat split; auto. left; reflexivity.
      * destruct (S x Hx) as (edge' & nds' & nd & ? & ? & ? & ?).
        exists edge', nds', nd. repeat split; auto. right; assumption.
    + intros edge' [<- | Hin].
      * exists nds. split; [exact Ei|]. intros nd Hnd.
        destruct (C1 nd Hnd) as (n & ? & Hm). exists n. split; [assumption|].
        rewrite set_mem_app, Hm. reflexivity.
      * apply C. exact Hin.
Qed.

(** The nodes planned for a record are the nodes of its edges, each one
    once. *)
Lemma record_nodes_spec r ns :
  record_nodes r = Ok ns ->
  distinct_nodes ns = true /\
  (forall n, In n ns -> record_node r n) /\
  (forall n, record_node r n -> set_mem n ns = true).
Proof.
  unfold record_nodes, record_node.
  destruct (py_contains_key "connectivity" r) eqn:Ec.
  - destruct (py_getitem_str r "connectivity") as [cn|] eqn:Eg; simpl;
      [|discriminate].
    destruct (py_iter cn) as [edges|] eqn:Ei; simpl; [|discriminate].
    intros H. destruct (see_edges_spec edges [] ns H) as (new & E & D & S & C).
    simpl in E. subst new. repeat split.
    + apply D. reflexivity.
    + intros n Hn. destruct (S n Hn) as (edge & nds & nd & ? & ? & ? & ?).
      exists cn, edges, edge, nds, nd. repeat split; assumption.
    + intros n (cn' & edges' & edge & nds & nd & G & I & Hin & Hi & Hnd & Hp).
      injection G as <-. rewrite Ei in I. injection I as <-.
      destruct (C edge Hin) as (nds' & Hi' & Hall).
      rewrite Hi in Hi'. injection Hi' as <-.
      destruct (Hall nd Hnd) as (n' & Hp' & Hm).
      rewrite Hp in Hp'. injection Hp' as <-. exact Hm.
  - intros H. injection H as <-. repeat split.
    + intros n [].
    + intros n (cn & edges & edge & nds & nd & G & _).
      unfold py_contains_key, py_getitem_str in *. destruct r; try discriminate.
      destruct (dict_lookup "connectivity" members); discriminate.
Qed.

Lemma record_plan_inv r p :
  record_plan r = Ok p ->
  record_entity r = Ok (plan_entity p) /\
  record_label r = Ok (plan_label p) /\
  py_contains_key "references" r = false /\
  record_nodes r = Ok (plan_nodes p).
Proof.
  unfold record_plan.
  destruct (record_entity r) as [e|]; simpl; [|discriminate].
  destruct (record_label r) as [l|]; simpl; [|discriminate].
  destruct (py_contains_key "references" r); [discriminate|].
  destruct (record_nodes r) as [ns|]; simpl; [|discriminate].
  intros H. injection H as <-. auto.
Qed.

Lemma restore_ok_tables snap store :
  outcome (restore snap store) = Ok tt ->
  exists s rs t',
    snapshot_source snap = Ok s /\ snapshot_records snap = Ok rs /\
    apply_records s rs (delete_source s store) = Some t' /\
    stored (restore snap store) = t'.
Proof.
  intros H. destruct (restore_ok_image snap store H) as (t' & I & R).
  destruct (restore_image_some snap store t' I) as (s & rs & Hs & Hr & A).
  exists s, rs, t'. unfold stored. rewrite R. auto.
Qed.

(** C1 (amended).  Nodes are deduplicated record by record: after a restore
    the connectivity_nodes rows of the source are, record after record, one
    row for each distinct node of that record's edges, attributed to that
    record; the rows of other sources stay. *)
Theorem restore_connectivity_nodes_per_record :
  forall (snap : json) (store : tables),
    outcome (restore snap store) = Ok tt ->
    exists s rs rowss,
      snapshot_source snap = Ok s /\
      snapshot_records snap = Ok rs /\
      Forall2 (record_node_rows s) rs rowss /\
      connectivity_nodes (stored (restore snap store)) =
        filter (other_source s) (connectivity_nodes store) ++ List.concat rowss.
Proof.
  intros snap store H.
  destruct (restore_ok_tables snap store H) as (s & rs & t' & Hs & Hr & A & ->).
  destruct (apply_records_some s rs _ _ A) as (ps & F & _ & _ & _ & N).
  exists s, rs, (map (node_rows_of s) ps). repeat split; auto.
  - clear - F. induction F as [|r p rs ps Hp F IH]; simpl; constructor; auto.
    destruct (record_plan_inv r p Hp) as (He & _ & _ & Hn).
    destruct (record_nodes_spec r _ Hn) as (D & S & C).
    exists (plan_entity p), (plan_nodes p). repeat split; auto.
  - rewrite N. simpl. rewrite flat_map_concat_map. reflexivity.
Qed.

Lemma restore_connectivity_nodes_per_record_witness :
  outcome (restore shared_node_snapshot empty_store) = Ok tt /\
  exists s rs rowss,
    snapshot_source shared_node_snapshot = Ok s /\
    snapshot_records shared_node_snapshot = Ok rs /\
    Forall2 (record_node_rows s) rs rowss /\
    connectivity_nodes (stored (restore shared_node_snapshot empty_store)) =
      filter (other_source s) (connectivity_nodes empty_store) ++ List.concat rowss.
Proof.
  split.
  - vm_compute. reflexivity.
  - apply (restore_connectivity_nodes_per_record shared_node_snapshot empty_store).
    vm_compute. reflexivity.
Defined.

(** C1 (as stated) fails: a node shared by the edges of two records of one
    source yields two connectivity_nodes rows for that (source, node)
    pair. *)
Lemma restore_shared_node_two_rows :
  outcome (restore shared_node_snapshot empty_store) = Ok tt /\
  connectivity_nodes (stored (restore shared_node_snapshot empty_store)) =
    [(SqlText "npo-2023", shared_node, SqlText "path:1");
     (SqlText "npo-2023", shared_node, SqlText "path:2")] /\
  ~ NoDup (map fst (connectivity_nodes
                      (stored (restore shared_node_snapshot empty_store)))).
Proof.
  split; [vm_compute; reflexivity|].
  split; [vm_compute; reflexivity|].
  intros H. vm_compute in H. inversion H as [|x l Hin _]; subst.
  apply Hin. left. reflexivity.
Qed.

(* ------------------------------------------------------------------ *)
(** * The payload of a restored record *)

(** C10.  A restore that succeeds stores, for every record of the snapshot
    and in their order, the whole record as payload: the payload keeps the
    [id] member, and that member is the entity of the row. *)
Theorem restore_payload_keeps_id :
  forall (snap : json) (store : tables),
    outcome (restore snap store) = Ok tt ->
    exists s rs rows,
      snapshot_source snap = Ok s /\
      snapshot_records snap = Ok rs /\
      knowledge (stored (restore snap store)) =
        filter (other_source s) (knowledge store) ++ rows /\
      Forall2 (fun r row =>
                 fst (fst row) = s /\ snd row = r /\
                 exists id, py_getitem_str (snd row) "id" = Ok id /\
                            sql_bind id = Ok (snd (fst row))) rs rows.
Proof.
  intros snap store H.
  destruct (restore_ok_tables snap store H) as (s & rs & t' & Hs & Hr & A & ->).
  destruct (apply_records_some s rs _ _ A) as (ps & F & K & _).
  exists s, rs, (map (fun rp => knowledge_row_of s (fst rp) (snd rp)) (combine rs ps)).
  repeat split; auto.
  clear - F. induction F as [|r p rs ps Hp F IH]; simpl; constructor; auto.
  repeat split.
  destruct (record_plan_inv r p Hp) as (He & _).
  unfold record_entity in He.
  destruct (py_getitem_str r "id") as [id|] eqn:E; simpl in He; [|discriminate].
  exists id. auto.
Qed.

Lemma restore_payload_keeps_id_witness :
  outcome (restore shared_node_snapshot old_store) = Ok tt /\
  exists s rs rows,
    snapshot_source shared_node_snapshot = Ok s /\
    snapshot_records shared_node_snapshot = Ok rs /\
    knowledge (stored (restore shared_node_snapshot old_store)) =
      filter (other_source s) (knowledge old_store) ++ rows /\
    Forall2 (fun r row =>
               fst (fst row) = s /\ snd row = r /\
               exists id, py_getitem_str (snd row) "id" = Ok id /\
                          sql_bind id = Ok (snd (fst row))) rs rows.
Proof.
  split.
  - vm_compute. reflexivity.
  - apply (restore_payload_keeps_id shared_node_snapshot old_store).
    vm_compute. reflexivity.
Defined.

(** A restore that succeeds leaves no publication row for its source. *)
Lemma restore_clears_publications snap store :
  outcome (restore snap store) = Ok tt ->
  exists s,
    snapshot_source snap = Ok s /\
    publications (stored (restore snap store)) =
      filter (other_source s) (publications store).
Proof.
  intros H.
  destruct (restore_ok_tables snap store H) as (s & rs & t' & Hs & Hr & A & ->).
  destruct (apply_records_some s rs _ _ A) as (ps & _ & _ & _ & P & _).
  exists s. split; [exact Hs | exact P].
Qed.

(* ------------------------------------------------------------------ *)
(** * Restoring twice *)

Lemma apply_records_labels s rs : forall t t',
  apply_records s rs t = Some t' ->
  labels t' = relabel_all (plans_of rs) (labels t) /\
  forall L, apply_records s rs (with_labels L t) =
            Some (with_labels (relabel_all (plans_of rs) L) t').
Proof.
  induction rs as [|r rs IH]; intros t t' H; simpl in H.
  - injection H as <-. split; reflexivity.
  - unfold plans_of. simpl. fold (plans_of rs).
    destruct (record_plan r) as [p|] eqn:Ep; [|discriminate]. simpl.
    destruct (knowledge_conflict s (plan_entity p) (knowledge t)) eqn:Ec;
      [discriminate|].
    destruct (IH _ _ H) as (L1 & L2). split; [exact L1|].
    intros L. simpl.
    exact (L2 (relabel (plan_entity p) (plan_label p) L)).
Qed.

Lemma filter_filter {A} (f g : A -> bool) l :
  filter f (filter g l) = filter (fun x => g x && f x) l.
Proof.
  induction l as [|a l IH]; simpl; [reflexivity|].
  destruct (g a); simpl; [destruct (f a)|]; rewrite ?IH; reflexivity.
Qed.

Lemma relabel_all_split ps : forall L,
  relabel_all ps L =
  filter (fun r => not_relabelled ps (fst r)) L ++ relabel_all ps [].
Proof.
  induction ps as [|p ps IH]; intros L; simpl.
  - rewrite app_nil_r. induction L as [|a L IHL]; simpl;
      [reflexivity | f_equal; exact IHL].
  - destruct (plan_label p) as [v|]; simpl.
    + rewrite IH. rewrite (IH [(plan_entity p, v)]).
      rewrite filter_app, filter_filter, <- app_assoc. reflexivity.
    + apply IH.
Qed.

Lemma relabel_all_nil_keys ps :
  (forall p, In p ps -> plan_label p <> None ->
             sql_eq (plan_entity p) (plan_entity p) = true) ->
  forall row, In row (relabel_all ps []) -> not_relabelled ps (fst row) = false.
Proof.
  induction ps as [|p ps IH]; intros Hnn row Hin; simpl in *.
  - contradiction.
  - assert (Hps : forall q, In q ps -> plan_label q <> None ->
                  sql_eq (plan_entity q) (plan_entity q) = true)
      by (intros q Hq; apply Hnn; right; exact Hq).
    destruct (plan_label p) as [v|] eqn:El; simpl in Hin.
    + rewrite relabel_all_split in Hin. apply in_app_or in Hin.
      destruct Hin as [Hin | Hin].
      * simpl in Hin.
        destruct (not_relabelled ps (plan_entity p)); simpl in Hin;
          [|contradiction].
        destruct Hin as [<- | []]. simpl.
        rewrite (Hnn p (or_introl eq_refl)); [reflexivity|].
        rewrite El. discriminate.
      * rewrite (IH Hps row Hin). apply andb_false_r.
    + rewrite (IH Hps row Hin). reflexivity.
Qed.

Lemma filter_none {A} (f : A -> bool) l :
  (forall x, In x l -> f x = false) -> filter f l = [].
Proof.
  induction l as [|a l IH]; intros H; simpl; [reflexivity|].
  rewrite (H a (or_introl eq_refl)). apply IH.
  intros x Hx. apply H. right. exact Hx.
Qed.

Lemma relabel_all_twice ps L :
  (forall p, In p ps -> plan_label p <> None ->
             sql_eq (plan_entity p) (plan_entity p) = true) ->
  relabel_all ps (relabel_all ps L) = relabel_all ps L.
Proof.
  intros Hnn. rewrite (relabel_all_split ps (relabel_all ps L)).
  rewrite (relabel_all_split ps L) at 1.
  rewrite filter_app, filter_twice.
  rewrite (filter_none (fun r : sqlval * sqlval => not_relabelled ps (fst r))
             _ (relabel_all_nil_keys ps Hnn)).
  rewrite app_nil_r. symmetry. apply relabel_all_split.
Qed.

Lemma sql_bind_not_null j v :
  sql_bind j = Ok v -> j <> JNull -> sql_eq v v = true.
Proof.
  unfold sql_bind. destruct j; intros H Hn; try discriminate.
  - contradiction.
  - injection H as <-. apply Z.eqb_refl.
  - destruct (_ && _); [|discriminate].
    injection H as <-. apply Z.eqb_refl.
  - injection H as <-. apply String.eqb_refl.
Qed.

Lemma apply_records_plans s rs : forall t t',
  apply_records s rs t = Some t' ->
  Forall2 (fun r p => record_plan r = Ok p) rs (plans_of rs) /\
  knowledge t' = knowledge t ++
    map (fun rp => knowledge_row_of s (fst rp) (snd rp)) (combine rs (plans_of rs)) /\
  publications t' = publications t /\
  connectivity_nodes t' = connectivity_nodes t ++ flat_map (node_rows_of s) (plans_of rs).
Proof.
  induction rs as [|r rs IH]; intros t t' H; simpl in H.
  - injection H as <-. simpl. rewrite !app_nil_r. repeat split. constructor.
  - unfold plans_of. simpl. fold (plans_of rs).
    destruct (record_plan r) as [p|] eqn:Ep; [|discriminate]. simpl.
    destruct (knowledge_conflict s (plan_entity p) (knowledge t)); [discriminate|].
    destruct (IH _ _ H) as (F & K & P & N). simpl in *. repeat split.
    + constructor; assumption.
    + rewrite K, <- app_assoc. reflexivity.
    + exact P.
    + rewrite N, <- app_assoc. reflexivity.
Qed.

Lemma filter_other_source_rows {B C} (s : sqlval) (rows : list (sqlval * B * C)) :
  sql_eq s s = true ->
  (forall row, In row rows -> fst (fst row) = s) ->
  filter (other_source s) rows = [].
Proof.
  intros Hs H. apply filter_none. intros row Hin.
  unfold other_source. rewrite (H row Hin), Hs. reflexivity.
Qed.

Lemma app_nil_eq {A} (a b : list A) : b = [] -> a ++ b = a.
Proof. intros ->. apply app_nil_r. Qed.

Lemma apply_records_again s rs store t1 :
  sql_eq s s = true ->
  (forall p, In p (plans_of rs) -> plan_label p <> None ->
             sql_eq (plan_entity p) (plan_entity p) = true) ->
  apply_records s rs (delete_source s store) = Some t1 ->
  apply_records s rs (delete_source s t1) = Some t1.
Proof.
  intros Hs Hnn A.
  destruct (apply_records_plans s rs _ _ A) as (_ & K & P & N).
  destruct (apply_records_labels s rs _ _ A) as (L & Lall).
  assert (D : delete_source s t1 = with_labels (labels t1) (delete_source s store)).
  { unfold delete_source in K, P, N. simpl in K, P, N.
    unfold delete_source, with_labels. simpl. rewrite K, P, N.
    rewrite !filter_app, !filter_twice.
    f_equal.
    - apply app_nil_eq, filter_other_source_rows; [exact Hs|].
      intros row Hin. apply in_map_iff in Hin.
      destruct Hin as (rp & <- & _). reflexivity.
    - apply app_nil_eq, filter_other_source_rows; [exact Hs|].
      intros row Hin. apply in_flat_map in Hin.
      destruct Hin as (p & _ & Hin). unfold node_rows_of in Hin.
      apply in_map_iff in Hin. destruct Hin as (n & <- & _). reflexivity. }
  rewrite D, (Lall (labels t1)). f_equal.
  assert (E : relabel_all (plans_of rs) (labels t1) = labels t1).
  { rewrite L. apply relabel_all_twice, Hnn. }
  rewrite E. unfold with_labels. apply tables_eta.
Qed.

Lemma dict_lookup_set key v m : dict_lookup key (dict_set key v m) = Some v.
Proof.
  induction m as [|[k x] m IH]; simpl.
  - rewrite String.eqb_refl. reflexivity.
  - destruct (String.eqb k key) eqn:E; simpl; rewrite E; auto.
Qed.

Lemma not_null_neq j : not_null j = true -> j <> JNull.
Proof. intros H ->. discriminate. Qed.

Lemma plans_of_in rs p :
  In p (plans_of rs) -> exists r, In r rs /\ record_plan r = Ok p.
Proof.
  unfold plans_of. intros H. apply in_flat_map in H.
  destruct H as (r & Hr & Hp). exists r. split; [exact Hr|].
  destruct (record_plan r) as [q|]; simpl in Hp; [|contradiction].
  destruct Hp as [-> | []]. reflexivity.
Qed.

Lemma plans_not_null rs :
  forallb labelled_id_not_null rs = true ->
  forall p, In p (plans_of rs) -> plan_label p <> None ->
            sql_eq (plan_entity p) (plan_entity p) = true.
Proof.
  intros H p Hp Hl. destruct (plans_of_in rs p Hp) as (r & Hr & Ep).
  rewrite forallb_forall in H. specialize (H r Hr).
  destruct (record_plan_inv r p Ep) as (He & Hlab & _).
  unfold record_entity in He. unfold labelled_id_not_null in H.
  unfold record_label in Hlab.
  destruct (py_contains_key "label" r).
  - simpl in H.
    destruct (py_getitem_str r "id") as [id|]; simpl in He; [|discriminate].
    exact (sql_bind_not_null id _ He (not_null_neq id H)).
  - injection Hlab as E. symmetry in E. contradiction.
Qed.

(** For a document whose source is not [null] and in which no record that
    carries a label has [null] as its id, restoring it a second time
    changes nothing. *)
Lemma restore_twice_keys_not_null snap store :
  keys_not_null snap = true ->
  restore snap (stored (restore snap store)) = restore snap store.
Proof.
  intros Hk.
  pose proof (restore_run snap store) as R.
  destruct (restore_image snap store) as [t1|] eqn:I.
  - rewrite R. unfold stored. simpl.
    pose proof (restore_run snap t1) as R1.
    assert (I1 : restore_image snap t1 = Some t1).
    { unfold restore_image in *. unfold keys_not_null, snapshot_records in Hk.
      destruct (py_getitem_str snap "source") as [ks|]; [|discriminate].
      destruct (sql_bind ks) as [s|] eqn:Es; [|discriminate].
      destruct (rbind (py_getitem_str snap "knowledge") py_iter) as [rs|];
        [|discriminate].
      apply andb_prop in Hk. destruct Hk as (Hks & Hrs).
      apply apply_records_again with (store := store).
      - exact (sql_bind_not_null ks s Es (not_null_neq ks Hks)).
      - apply plans_not_null. exact Hrs.
      - exact I. }
    rewrite I1 in R1. exact R1.
  - destruct (restore_cases snap store) as [(e & c & _ & E & D) | (c & _ & E & _)].
    + unfold stored. rewrite E. simpl. rewrite D. exact E.
    + destruct R as (x & c' & R). rewrite R in E. discriminate.
Qed.

Lemma keys_not_null_snapshot sn : keys_not_null (json_of_snapshot sn) = true.
Proof.
  unfold keys_not_null, snapshot_records, json_of_snapshot. simpl.
  apply forallb_forall. intros r Hin. apply in_map_iff in Hin.
  destruct Hin as (x & <- & _).
  unfold labelled_id_not_null, json_of_record, py_getitem_str.
  rewrite dict_lookup_set. simpl. apply orb_true_r.
Qed.

(** C8.  Restore is idempotent: whatever the store holds, restoring a
    snapshot a second time ends as the first restore did and leaves the
    store that the first restore left, with every table equal row for
    row. *)
Theorem restore_twice_same :
  forall (sn : snapshot) (store : tables),
    restore (json_of_snapshot sn)
            (stored (restore (json_of_snapshot sn) store)) =
    restore (json_of_snapshot sn) store.
Proof.
  intros sn store. apply restore_twice_keys_not_null.
  apply keys_not_null_snapshot.
Qed.

Example restore_twice_same_example :
  outcome (restore shared_node_snapshot old_store) = Ok tt /\
  stored (restore shared_node_snapshot
            (stored (restore shared_node_snapshot old_store))) =
  stored (restore shared_node_snapshot old_store).
Proof. split; vm_compute; reflexivity. Qed.

(** Outside the snapshots: a document with a [null] key.  SQLite compares
    NULL equal to nothing, so a second restore neither replaces the label
    of a [null] entity nor deletes the rows of a [null] source. *)
Lemma restore_twice_null_keys_differs :
  (outcome (restore null_id_document empty_store) = Ok tt /\
   labels (stored (restore null_id_document empty_store)) =
     [(SqlNull, SqlText "Vagal pathway")] /\
   labels (stored (restore null_id_document
                     (stored (restore null_id_document empty_store)))) =
     [(SqlNull, SqlText "Vagal pathway"); (SqlNull, SqlText "Vagal pathway")]) /\
  (outcome (restore null_source_document empty_store) = Ok tt /\
   List.length (knowledge (stored (restore null_source_document empty_store))) = 1 /\
   List.length (knowledge (stored (restore null_source_document
                     (stored (restore null_source_document empty_store))))) = 2) /\
  stored (restore null_id_document (stored (restore null_id_document empty_store)))
    <> stored (restore null_id_document empty_store).
Proof.
  repeat split; try (vm_compute; reflexivity).
  vm_compute. discriminate.
Qed.

(* ------------------------------------------------------------------ *)
(** * Records with references *)

(** C3.  The code does not do what the specification says here: a record
    that carries a [references] member, even an empty one, stops the
    restore wherever it stands in the snapshot.  The statement that should write its publications names
    three columns and two values, so the restore raises and the store
    stays as it was; the publications of the record are never written. *)
Theorem restore_references_raises :
  forall (snap : json) (store : tables) (rs : list json) (r : json),
    snapshot_records snap = Ok rs ->
    In r rs ->
    py_contains_key "references" r = true ->
    (exists e, outcome (restore snap store) = Raise e) /\
    stored (restore snap store) = store.
Proof.
  intros snap store rs r Hr Hin Hrefs.
  unfold snapshot_records in Hr.
  destruct (py_getitem_str snap "knowledge") as [saved|] eqn:Ek; simpl in Hr;
    [|discriminate].
  destruct (restore_rows_references_raises snap saved rs r Ek Hr Hin Hrefs
              (connect store)) as (e & c & E).
  destruct (restore_cases snap store) as [(e' & c' & E1 & E2 & D) | (c' & E1 & _)].
  - split.
    + exists e'. unfold outcome. rewrite E2. reflexivity.
    + unfold stored. rewrite E2. exact D.
  - rewrite E in E1. discriminate.
Qed.

Lemma restore_references_raises_witness :
  (exists e, outcome (restore references_snapshot old_store) = Raise e) /\
  stored (restore references_snapshot old_store) = old_store.
Proof.
  apply (restore_references_raises references_snapshot old_store
           [JObj [("id", JStr "path:0"); ("references", JArr [JStr "PMID:123"])]]
           (JObj [("id", JStr "path:0"); ("references", JArr [JStr "PMID:123"])])).
  - reflexivity.
  - left. reflexivity.
  - reflexivity.
Defined.

(** C4.  The code does not do what the specification says here: on the
    snapshot of the concrete scenario the restore does not succeed.  It raises
    [sqlite3.OperationalError] at the publications statement, after the
    knowledge and label rows were written in the transaction and before any
    connectivity node; nothing is committed and the empty store stays
    empty. *)
Theorem restore_scenario_raises :
  outcome (restore scenario_snapshot empty_store) = Raise OperationalError /\
  stored (restore scenario_snapshot empty_store) = empty_store /\
  txn (snd (restore scenario_snapshot empty_store)) =
    Tables [(SqlText "npo-2023", SqlText "path:1",
             JObj [("id", JStr "path:1");
                   ("label", JStr "Vagal pathway");
                   ("references", JArr [JStr "PMID:123"]);
                   ("connectivity",
                    JArr [JArr [JArr [JStr "UBERON:1"; JArr []];
                                JArr [JStr "UBERON:2"; JArr []]]])])]
           [(SqlText "path:1", SqlText "Vagal pathway")]
           [] [].
Proof.
  repeat split; vm_compute; reflexivity.
Qed.

(* ------------------------------------------------------------------ *)
(** * The unique index of the knowledge table *)

Lemma sql_eq_sym a b : sql_eq a b = sql_eq b a.
Proof.
  destruct a, b; simpl; try reflexivity.
  - apply Z.eqb_sym.
  - apply String.eqb_sym.
Qed.

Lemma knowledge_conflict_app s e l1 l2 :
  knowledge_conflict s e (l1 ++ l2) =
  knowledge_conflict s e l1 || knowledge_conflict s e l2.
Proof. apply existsb_app. Qed.

Lemma unique_index_snoc rows s e d :
  unique_index (rows ++ [(s, e, d)]) =
  unique_index rows && negb (knowledge_conflict s e rows).
Proof.
  induction rows as [|r rows IH]; simpl.
  - reflexivity.
  - rewrite IH, knowledge_conflict_app. simpl.
    rewrite (sql_eq_sym s), (sql_eq_sym e).
    destruct (knowledge_conflict (fst (fst r)) (snd (fst r)) rows),
      (sql_eq (fst (fst r)) s && sql_eq (snd (fst r)) e),
      (unique_index rows), (knowledge_conflict s e rows); reflexivity.
Qed.

Lemma knowledge_conflict_filter f s e rows :
  knowledge_conflict s e rows = false ->
  knowledge_conflict s e (filter f rows) = false.
Proof.
  induction rows as [|r rows IH]; simpl; [auto|].
  intros H. apply orb_false_elim in H. destruct H as (H1 & H2).
  destruct (f r); simpl; [rewrite H1|]; auto.
Qed.

Lemma unique_index_filter f rows :
  unique_index rows = true -> unique_index (filter f rows) = true.
Proof.
  induction rows as [|r rows IH]; simpl; [auto|].
  intros H. apply andb_prop in H. destruct H as (H1 & H2).
  destruct (f r); simpl; [|auto].
  rewrite (IH H2), andb_true_r.
  apply negb_true_iff in H1. rewrite (knowledge_conflict_filter f _ _ _ H1).
  reflexivity.
Qed.

(** On rows whose keys are not NULL the index is uniqueness of the pair
    (source, entity). *)
Lemma unique_index_NoDup rows :
  (forall r, In r rows ->
     sql_eq (fst (fst r)) (fst (fst r)) = true /\
     sql_eq (snd (fst r)) (snd (fst r)) = true) ->
  unique_index rows = true -> NoDup (map fst rows).
Proof.
  induction rows as [|r rows IH]; simpl; intros Hnn U.
  - constructor.
  - apply andb_prop in U. destruct U as (U1 & U2). constructor.
    + intros Hin. apply in_map_iff in Hin. destruct Hin as (r' & E & Hin).
      apply negb_true_iff in U1. rewrite <- not_true_iff_false in U1.
      apply U1. unfold knowledge_conflict. rewrite existsb_exists.
      exists r'. split; [exact Hin|]. rewrite E.
      destruct (Hnn r (or_introl eq_refl)) as (-> & ->). reflexivity.
    + apply IH; [|exact U2]. intros r' Hr'. apply Hnn. right. exact Hr'.
Qed.

Lemma apply_records_unique s rs : forall t t',
  unique_store t -> apply_records s rs t = Some t' -> unique_store t'.
Proof.
  unfold unique_store.
  induction rs as [|r rs IH]; intros t t' U H; simpl in H.
  - injection H as <-. exact U.
  - destruct (record_plan r) as [p|]; [|discriminate].
    destruct (knowledge_conflict s (plan_entity p) (knowledge t)) eqn:Ec;
      [discriminate|].
    apply (IH (apply_plan s r p t) t'); [|exact H].
    simpl. rewrite unique_index_snoc, U, Ec. reflexivity.
Qed.

Lemma restore_unique snap store :
  unique_store store -> unique_store (stored (restore snap store)).
Proof.
  intros U. pose proof (restore_run snap store) as R.
  destruct (restore_image snap store) as [t'|] eqn:I.
  - unfold stored. rewrite R. simpl.
    destruct (restore_image_some snap store t' I) as (s & rs & _ & _ & A).
    apply (apply_records_unique s rs _ _) with (2 := A).
    unfold unique_store, delete_source. simpl.
    apply unique_index_filter. exact U.
  - destruct (restore_cases snap store) as [(e & c & _ & E & D) | (c & _ & E & _)].
    + unfold stored. rewrite E. simpl. rewrite D. exact U.
    + destruct R as (x & c' & R). rewrite R in E. discriminate.
Qed.

Lemma keeps_unique_ret {A} (a : A) : keeps_unique (ret a).
Proof. intros c r c' D T H. inversion H; subst. auto. Qed.

Lemma keeps_unique_raise {A} e : keeps_unique (@raise A e).
Proof. intros c r c' D T H. inversion H; subst. auto. Qed.

Lemma keeps_unique_lift {A} (x : result A) : keeps_unique (lift x).
Proof. intros c r c' D T H. inversion H; subst. auto. Qed.

Lemma keeps_unique_commit : keeps_unique commit.
Proof. intros c r c' D T H. inversion H; subst. auto. Qed.

Lemma keeps_unique_update f :
  (forall t, unique_store t -> unique_store (f t)) -> keeps_unique (update f).
Proof. intros Hf c r c' D T H. inversion H; subst. simpl. auto. Qed.

Lemma keeps_unique_bind {A B} (m : M A) (k : A -> M B) :
  keeps_unique m -> (forall a, keeps_unique (k a)) -> keeps_unique (bind m k).
Proof.
  intros Hm Hk c r c' D T H. unfold bind in H.
  destruct (m c) as [[a|e] c1] eqn:E.
  - destruct (Hm _ _ _ D T E) as (D1 & T1). exact (Hk a _ _ _ D1 T1 H).
  - inversion H; subst. exact (Hm _ _ _ D T E).
Qed.

Lemma keeps_unique_for_each {A} (body : A -> M unit) l :
  (forall x, keeps_unique (body x)) -> keeps_unique (for_each body l).
Proof.
  intros Hb. induction l as [|x l IH]; simpl.
  - apply keeps_unique_ret.
  - apply keeps_unique_bind; auto.
Qed.

Lemma keeps_unique_delete_knowledge ks : keeps_unique (delete_knowledge ks).
Proof.
  unfold delete_knowledge. apply keeps_unique_bind.
  - apply keeps_unique_lift.
  - intros s. apply keeps_unique_update. intros t U.
    unfold unique_store in *. simpl. apply unique_index_filter. exact U.
Qed.

Lemma keeps_unique_delete_connectivity_nodes ks :
  keeps_unique (delete_connectivity_nodes ks).
Proof.
  unfold delete_connectivity_nodes. apply keeps_unique_bind.
  - apply keeps_unique_lift.
  - intros s. apply keeps_unique_update. intros t U. exact U.
Qed.

Lemma keeps_unique_extract_cmd kro arg : keeps_unique (extract_cmd kro arg).
Proof.
  intros c r c' D T H. unfold extract_cmd in H.
  assert (K : keeps_unique
    (store <- lift (kro arg (disk c)) ;;
     if negb (db_open store) then raise IOError
     else
       match handle_source store with
       | None => raise ValueError
       | Some knowledge_source =>
           rows <- select_knowledge (JStr knowledge_source) ;;
           saved <- lift (extract_rows rows) ;;
           ret (String.append knowledge_source ".json",
                JObj [("source", JStr knowledge_source);
                      ("knowledge", JArr saved)])
       end)).
  { apply keeps_unique_bind; [apply keeps_unique_lift|]. intros h.
    destruct (negb (db_open h)); [apply keeps_unique_raise|].
    destruct (handle_source h); [|apply keeps_unique_raise].
    apply keeps_unique_bind.
    - unfold select_knowledge. apply keeps_unique_bind;
        [apply keeps_unique_lift|].
      intros s0 c0 r0 c0' D0 T0 H0. inversion H0; subst. auto.
    - intros rows. apply keeps_unique_bind; [apply keeps_unique_lift|].
      intros saved. apply keeps_unique_ret. }
  exact (K (connect (disk c)) r c' D D H).
Qed.

Lemma keeps_unique_insert_knowledge ks ej d :
  keeps_unique (insert_knowledge ks ej d).
Proof.
  unfold insert_knowledge.
  apply keeps_unique_bind; [apply keeps_unique_lift | intros _].
  apply keeps_unique_bind; [apply keeps_unique_lift | intros s].
  apply keeps_unique_bind; [apply keeps_unique_lift | intros e].
  intros c r c' D T H.
  destruct (knowledge_conflict s e (knowledge (txn c))) eqn:Ec.
  - inversion H; subst. auto.
  - inversion H; subst. split; [exact D|].
    unfold unique_store in *. simpl.
    rewrite unique_index_snoc, T, Ec. reflexivity.
Qed.

Section Invariant.

Variable scicrunch_key : option string.
Variable KnowledgeStore_sckan : result store_handle.
Variable KnowledgeStore_read_only : option string -> tables -> result store_handle.
Variable connectivity_paths : result (list string).
Variable entity_knowledge : string -> json -> M unit.
Variable close : M unit.
Variable knowledge_sources : tables -> list string.
Variable save_json : bool.

(** mapknowledge writes through the same unique index. *)
Hypothesis entity_knowledge_unique :
  forall path source, keeps_unique (entity_knowledge path source).
Hypothesis close_unique : keeps_unique close.

Lemma keeps_unique_load_cmd :
  keeps_unique (load_cmd scicrunch_key KnowledgeStore_sckan
                  KnowledgeStore_read_only connectivity_paths
                  entity_knowledge close save_json).
Proof.
  unfold load_cmd. destruct scicrunch_key; [|apply keeps_unique_raise].
  apply keeps_unique_bind; [apply keeps_unique_lift | intros h].
  destruct (negb (db_open h)); [apply keeps_unique_raise|].
  unfold load_steps.
  apply keeps_unique_bind; [apply keeps_unique_delete_knowledge | intros _].
  apply keeps_unique_bind;
    [apply keeps_unique_delete_connectivity_nodes | intros _].
  apply keeps_unique_bind; [apply keeps_unique_commit | intros _].
  apply keeps_unique_bind; [apply keeps_unique_lift | intros paths].
  apply keeps_unique_bind.
  { apply keeps_unique_for_each. intros path. apply entity_knowledge_unique. }
  intros _.
  apply keeps_unique_bind; [apply close_unique | intros _].
  destruct save_json; [|apply keeps_unique_ret].
  apply keeps_unique_bind; [apply keeps_unique_extract_cmd | intros saved].
  apply keeps_unique_ret.
Qed.

(** C9.  Load, Extract, Restore and Info all keep the unique index on
    knowledge(source, entity) valid, for every snapshot given to Restore:
    a second record with the id of an earlier one is refused by the index
    and the restore is abandoned.  The collaborator is assumed to write
    through the same index. *)
Theorem knowledge_index_preserved :
  forall (store : tables) (snap : json) (arg_source : option string),
    unique_store store ->
    unique_store (stored (load scicrunch_key KnowledgeStore_sckan
                            KnowledgeStore_read_only connectivity_paths
                            entity_knowledge close save_json store)) /\
    unique_store (stored (extract KnowledgeStore_read_only arg_source store)) /\
    unique_store (stored (restore snap store)) /\
    unique_store (stored (info knowledge_sources store)).
Proof.
  intros store snap arg_source U. repeat split.
  - unfold load, stored.
    destruct (load_cmd _ _ _ _ _ _ _ (connect store)) as [r c'] eqn:E.
    exact (proj1 (keeps_unique_load_cmd (connect store) r c' U U E)).
  - unfold extract, stored.
    destruct (extract_cmd _ _ (connect store)) as [r c'] eqn:E.
    exact (proj1 (keeps_unique_extract_cmd _ _ (connect store) r c' U U E)).
  - apply restore_unique. exact U.
  - exact U.
Qed.

End Invariant.

Lemma keeps_unique_remote_entity_knowledge path source :
  keeps_unique (remote_entity_knowledge path source).
Proof.
  unfold remote_entity_knowledge. apply keeps_unique_bind.
  - apply keeps_unique_insert_knowledge.
  - intros _. apply keeps_unique_commit.
Qed.

Lemma knowledge_index_preserved_witness :
  unique_store old_store /\
  outcome (restore duplicate_id_snapshot old_store) = Raise IntegrityError /\
  unique_store (stored (load (Some "key") remote_handle open_read_only
                          remote_paths remote_entity_knowledge (ret tt) true
                          old_store)) /\
  unique_store (stored (extract open_read_only None old_store)) /\
  unique_store (stored (restore duplicate_id_snapshot old_store)) /\
  unique_store (stored (info listed_sources old_store)).
Proof.
  split; [reflexivity|]. split; [vm_compute; reflexivity|].
  apply (knowledge_index_preserved (Some "key") remote_handle open_read_only
           remote_paths remote_entity_knowledge (ret tt) listed_sources true
           keeps_unique_remote_entity_knowledge (keeps_unique_ret tt)
           old_store duplicate_id_snapshot None).
  reflexivity.
Defined.

(* ------------------------------------------------------------------ *)
(** * Load *)

Lemma sql_bind_source source :
  sql_bind (py_of_source source) = Ok (sql_of_source source).
Proof. destruct source; reflexivity. Qed.

(** C7 (amended).  [load] fails without a mutation of the store only when
    the remote fails where the source is resolved: when the constructor
    raises, [load] ends with that exception (or with exit status 1 when the
    API key is missing, before the remote is asked) and no statement has
    run.  A remote that fails when the paths are asked for, on line 57,
    fails after the commit of line 55: [load] ends with that exception and
    the knowledge and connectivity_nodes rows of the source are deleted. *)
Theorem load_remote_unavailable :
  forall (scicrunch_key : option string) (e : exn)
         (KnowledgeStore_read_only : option string -> tables -> result store_handle)
         (connectivity_paths : result (list string))
         (entity_knowledge : string -> json -> M unit) (close : M unit)
         (save_json : bool) (store : tables),
    load scicrunch_key (Raise e) KnowledgeStore_read_only connectivity_paths
         entity_knowledge close save_json store =
      (Raise (match scicrunch_key with Some _ => e | None => SystemExit 1 end),
       connect store) /\
    forall (key : string) (source : option string),
      load (Some key) (Ok (Handle true source)) KnowledgeStore_read_only
           (Raise e) entity_knowledge close save_json store =
        (Raise e, connect (load_deleted source store)).
Proof.
  intros key e kro paths ek close save store. split.
  - unfold load, load_cmd. destruct key; reflexivity.
  - intros k source. unfold load, load_cmd, load_steps. simpl.
    unfold delete_knowledge, delete_connectivity_nodes, bind, lift.
    rewrite sql_bind_source. reflexivity.
Qed.

(** C7 (as stated) fails: a remote that cannot be reached when the paths
    are asked for ends [load] after the rows of the source were deleted
    and the deletion committed. *)
Lemma load_unavailable_remote_deletes_rows :
  outcome (load (Some "key") remote_handle open_read_only unavailable_paths
             remote_entity_knowledge (ret tt) false old_store) =
    Raise (External "RemoteUnavailableError") /\
  knowledge old_store <> [] /\
  knowledge (stored (load (Some "key") remote_handle open_read_only
                       unavailable_paths remote_entity_knowledge (ret tt)
                       false old_store)) = [].
Proof.
  split; [vm_compute; reflexivity|].
  split; [vm_compute; discriminate | vm_compute; reflexivity].
Qed.

(** C2 (amended).  [load] commits before it asks for the paths: the path
    loop starts on a connection whose committed image is the store without
    the knowledge and connectivity_nodes rows of the source.  A failure in
    the loop ends [load] in the state the loop left; when the calls to the
    collaborator do not commit themselves, the store is left without those
    rows. *)
Theorem load_commits_before_paths :
  forall (key : string) (source : option string)
         (KnowledgeStore_read_only : option string -> tables -> result store_handle)
         (paths : list string)
         (entity_knowledge : string -> json -> M unit) (close : M unit)
         (save_json : bool) (store : tables) (e : exn) (c' : connection),
    for_each (fun path => entity_knowledge path (py_of_source source)) paths
      (connect (load_deleted source store)) = (Raise e, c') ->
    load (Some key) (Ok (Handle true source)) KnowledgeStore_read_only
         (Ok paths) entity_knowledge close save_json store = (Raise e, c') /\
    ((forall path, keeps_disk (entity_knowledge path (py_of_source source))) ->
     disk c' = load_deleted source store).
Proof.
  intros key source kro paths ek close save store e c' H. split.
  - unfold load, load_cmd, load_steps. simpl.
    unfold delete_knowledge, delete_connectivity_nodes, bind, lift.
    rewrite sql_bind_source. simpl.
    unfold load_deleted, connect in H. simpl in H.
    unfold set_connectivity_nodes, set_knowledge in *. simpl in *.
    rewrite H. reflexivity.
  - intros K.
    exact (keeps_disk_for_each _ paths K _ _ _ H).
Qed.

Lemma load_commits_before_paths_witness :
  load (Some "key") remote_handle open_read_only remote_paths
       failing_entity_knowledge (ret tt) false old_store =
    (Raise (External "RemoteUnavailableError"),
     connect (load_deleted (Some "npo-2023") old_store)) /\
  ((forall path,
      keeps_disk (failing_entity_knowledge path (py_of_source (Some "npo-2023")))) ->
   disk (connect (load_deleted (Some "npo-2023") old_store)) =
   load_deleted (Some "npo-2023") old_store).
Proof.
  apply (load_commits_before_paths "key" (Some "npo-2023") open_read_only
           ["path:1"; "path:2"] failing_entity_knowledge (ret tt) false
           old_store (External "RemoteUnavailableError")
           (connect (load_deleted (Some "npo-2023") old_store))).
  reflexivity.
Defined.

(** C2 (as stated) fails: a fetch that raises in the path loop leaves the
    store without the rows of the source, not in its state before the
    load. *)
Lemma load_failure_loses_rows :
  outcome (load (Some "key") remote_handle open_read_only remote_paths
             failing_entity_knowledge (ret tt) false old_store) =
    Raise (External "RemoteUnavailableError") /\
  knowledge (stored (load (Some "key") remote_handle open_read_only remote_paths
                       failing_entity_knowledge (ret tt) false old_store)) = [] /\
  stored (load (Some "key") remote_handle open_read_only remote_paths
            failing_entity_knowledge (ret tt) false old_store) <> old_store.
Proof.
  repeat split; try (vm_compute; reflexivity).
  vm_compute. discriminate.
Qed.

(* ------------------------------------------------------------------ *)
(** * Extract, then restore *)

Lemma sql_bind_py_of_sql e e' : sql_bind (py_of_sql e) = Ok e' -> e' = e.
Proof.
  destruct e; unfold py_of_sql, sql_bind; intros H.
  - injection H as <-. reflexivity.
  - destruct (_ && _); [|discriminate]. injection H as <-. reflexivity.
  - injection H as <-. reflexivity.
Qed.

Lemma sql_eq_text x s : sql_eq x (SqlText s) = true -> x = SqlText s.
Proof.
  destruct x; simpl; try discriminate.
  intros H. apply String.eqb_eq in H. subst. reflexivity.
Qed.

Lemma extract_row_plan row k p :
  extract_row row = Ok k -> record_plan k = Ok p ->
  plan_entity p = snd (fst row) /\
  with_id row = (fst (fst row), snd (fst row), k).
Proof.
  unfold extract_row, py_setitem_str, with_id. intros Hk Hp.
  destruct (snd row) as [| | | | |m]; try discriminate.
  injection Hk as <-. split; [|reflexivity].
  destruct (record_plan_inv _ _ Hp) as (He & _).
  unfold record_entity, py_getitem_str in He. rewrite dict_lookup_set in He.
  simpl in He. exact (sql_bind_py_of_sql _ _ He).
Qed.

Lemma extract_rows_ok rows :
  forallb restorable_row rows = true ->
  exists saved,
    extract_rows rows = Ok saved /\
    Forall2 (fun row k => extract_row row = Ok k /\
                          exists p, record_plan k = Ok p) rows saved.
Proof.
  induction rows as [|row rows IH]; simpl; intros H.
  - exists []. split; [reflexivity | constructor].
  - apply andb_prop in H. destruct H as (Hr & H).
    destruct (IH H) as (saved & E & F). unfold restorable_row in Hr.
    destruct (extract_row row) as [k|] eqn:Ek; [|discriminate].
    destruct (record_plan k) as [p|] eqn:Ep; [|discriminate].
    exists (k :: saved). simpl. rewrite E. split; [reflexivity|].
    constructor; [|exact F]. split; [exact Ek|]. exists p. exact Ep.
Qed.

Lemma apply_extracted s rows saved :
  Forall2 (fun row k => extract_row row = Ok k /\
                        exists p, record_plan k = Ok p) rows saved ->
  (forall row, In row rows -> fst (fst row) = SqlText s) ->
  unique_index rows = true ->
  forall t,
    (forall row, In row rows ->
       knowledge_conflict (SqlText s) (snd (fst row)) (knowledge t) = false) ->
    exists t',
      apply_records (SqlText s) saved t = Some t' /\
      knowledge t' = knowledge t ++ map with_id rows.
Proof.
  induction 1 as [|row k rows saved (Ek & p & Ep) F IH]; intros Hs U t Hc.
  - exists t. simpl. rewrite app_nil_r. auto.
  - simpl in U. apply andb_prop in U. destruct U as (U1 & U2).
    apply negb_true_iff in U1.
    destruct (extract_row_plan row k p Ek Ep) as (He & Hw).
    simpl. rewrite Ep, He, (Hc row (or_introl eq_refl)).
    destruct (IH (fun r Hr => Hs r (or_intror Hr)) U2 (apply_plan (SqlText s) k p t))
      as (t' & A & K).
    + intros row' Hin. simpl. rewrite knowledge_conflict_app.
      rewrite (Hc row' (or_intror Hin)). simpl.
      rewrite String.eqb_refl, He. simpl. rewrite orb_false_r.
      unfold knowledge_conflict in U1.
      rewrite <- not_true_iff_false in U1. rewrite existsb_exists in U1.
      apply not_true_iff_false. intros E. apply U1. exists row'.
      split; [exact Hin|].
      rewrite (Hs row' (or_intror Hin)), (Hs row (or_introl eq_refl)).
      simpl. rewrite String.eqb_refl. simpl. rewrite sql_eq_sym. exact E.
    + exists t'. split; [exact A|].
      rewrite K. simpl. rewrite <- app_assoc. simpl.
      rewrite Hw, He, (Hs row (or_introl eq_refl)). reflexivity.
Qed.

Lemma dict_set_same key v m :
  dict_lookup key m = Some v -> dict_set key v m = m.
Proof.
  induction m as [|[k x] m IH]; simpl; [discriminate|].
  destruct (String.eqb k key); intros H.
  - injection H as ->. reflexivity.
  - rewrite (IH H). reflexivity.
Qed.

(** A row whose payload already holds its entity as [id] comes back as it
    was. *)
Lemma with_id_same s e m :
  dict_lookup "id" m = Some (py_of_sql e) ->
  with_id (s, e, JObj m) = (s, e, JObj m).
Proof.
  intros H. unfold with_id. simpl. rewrite (dict_set_same _ _ _ H).
  reflexivity.
Qed.

Lemma index_insert_perm {A} (key : A -> sqlval) x l :
  Permutation (index_insert key x l) (x :: l).
Proof.
  induction l as [|y l IH]; simpl; [apply Permutation_refl|].
  destruct (sql_leb (key x) (key y)); [apply Permutation_refl|].
  apply (perm_trans (perm_skip y IH)). apply perm_swap.
Qed.

(** The index gives the rows of the table, each one once. *)
Lemma index_order_perm {A} (key : A -> sqlval) l :
  Permutation (index_order key l) l.
Proof.
  induction l as [|x l IH]; simpl; [apply perm_nil|].
  apply (perm_trans (index_insert_perm key x _)). apply perm_skip, IH.
Qed.

Lemma forallb_perm {A} (f : A -> bool) l l' :
  Permutation l l' -> forallb f l = forallb f l'.
Proof.
  induction 1 as [|x l l' _ IH|x y l|l l' l'' _ IH1 _ IH2]; simpl.
  - reflexivity.
  - rewrite IH. reflexivity.
  - destruct (f x), (f y); reflexivity.
  - rewrite IH1. exact IH2.
Qed.

Lemma existsb_perm {A} (f : A -> bool) l l' :
  Permutation l l' -> existsb f l = existsb f l'.
Proof.
  induction 1 as [|x l l' _ IH|x y l|l l' l'' _ IH1 _ IH2]; simpl.
  - reflexivity.
  - rewrite IH. reflexivity.
  - destruct (f x), (f y); reflexivity.
  - rewrite IH1. exact IH2.
Qed.

(** The unique index does not depend on the order of the rows. *)
Lemma unique_index_perm rows rows' :
  Permutation rows rows' -> unique_index rows = unique_index rows'.
Proof.
  induction 1 as [|x l l' P IH|x y l|l l' l'' _ IH1 _ IH2]; simpl.
  - reflexivity.
  - unfold knowledge_conflict. rewrite IH, (existsb_perm _ l l' P).
    reflexivity.
  - unfold knowledge_conflict. simpl.
    rewrite (sql_eq_sym (fst (fst x)) (fst (fst y))),
            (sql_eq_sym (snd (fst x)) (snd (fst y))).
    destruct (sql_eq (fst (fst y)) (fst (fst x)) &&
              sql_eq (snd (fst y)) (snd (fst x))); simpl; [reflexivity|].
    repeat match goal with
           | |- context [existsb ?f l] => destruct (existsb f l)
           end; reflexivity.
  - rewrite IH1. exact IH2.
Qed.

(** What [extract] does with a store that opens on the source [s]. *)
Lemma extract_run (kro : option string -> tables -> result store_handle)
  arg store s :
  kro arg store = Ok (Handle true (Some s)) ->
  extract kro arg store =
  (match extract_rows (selected_rows s store) with
   | Ok saved => Ok (String.append s ".json",
                     JObj [("source", JStr s); ("knowledge", JArr saved)])
   | Raise x => Raise x
   end, connect store).
Proof.
  intros H.
  unfold extract, extract_cmd, select_knowledge, bind, lift, selected_rows,
    source_rows.
  simpl. rewrite H. simpl.
  destruct (extract_rows _); reflexivity.
Qed.

(** C6 (amended).  Extract followed by Restore into a fresh store gives
    back, up to order, the knowledge rows of the source, each with its
    entity written into the payload as [id], whenever the index of the
    store is valid and its rows give records that [restore] accepts. *)
Theorem extract_restore_rows :
  forall (KnowledgeStore_read_only : option string -> tables -> result store_handle)
         (arg_source : option string) (loaded : tables) (s : string),
    KnowledgeStore_read_only arg_source loaded = Ok (Handle true (Some s)) ->
    unique_store loaded ->
    forallb restorable_row (source_rows s loaded) = true ->
    exists snap,
      extract KnowledgeStore_read_only arg_source loaded =
        (Ok (String.append s ".json", snap), connect loaded) /\
      outcome (restore snap empty_store) = Ok tt /\
      Permutation (knowledge (stored (restore snap empty_store)))
                  (map with_id (source_rows s loaded)).
Proof.
  intros kro arg loaded s Hh U Hr.
  pose proof (index_order_perm row_entity (source_rows s loaded)) as P.
  fold (selected_rows s loaded) in P.
  rewrite <- (forallb_perm restorable_row _ _ P) in Hr.
  destruct (extract_rows_ok _ Hr) as (saved & Es & F).
  exists (JObj [("source", JStr s); ("knowledge", JArr saved)]).
  split.
  - rewrite (extract_run kro arg loaded s Hh), Es. reflexivity.
  - destruct (apply_extracted s _ saved F) with (t := empty_store)
      as (t' & A & K).
    + intros row Hin. apply (Permutation_in _ P) in Hin.
      unfold source_rows in Hin. apply filter_In in Hin.
      apply sql_eq_text. exact (proj2 Hin).
    + rewrite (unique_index_perm _ _ P).
      unfold source_rows. apply unique_index_filter. exact U.
    + reflexivity.
    + pose proof (restore_run (JObj [("source", JStr s); ("knowledge", JArr saved)])
                    empty_store) as R.
      unfold restore_image in R. simpl in R.
      change (delete_source (SqlText s) empty_store) with empty_store in R.
      rewrite A in R. unfold outcome, stored. rewrite R. simpl.
      split; [reflexivity|].
      rewrite K. simpl. apply Permutation_map. exact P.
Qed.

Lemma extract_restore_rows_witness :
  exists snap,
    extract open_read_only (Some "npo-2023") loaded_store =
      (Ok (String.append "npo-2023" ".json", snap), connect loaded_store) /\
    outcome (restore snap empty_store) = Ok tt /\
    Permutation (knowledge (stored (restore snap empty_store)))
                (map with_id (source_rows "npo-2023" loaded_store)).
Proof.
  apply (extract_restore_rows open_read_only (Some "npo-2023") loaded_store
           "npo-2023"); reflexivity.
Defined.

(** C6 (as stated) fails: the payloads that come back carry the [id] that
    [extract] wrote into them, which the loaded payloads did not have. *)
Lemma extract_restore_changes_payload :
  load (Some "key") remote_handle open_read_only remote_paths
       remote_entity_knowledge (ret tt) true empty_store =
    (Ok (Some ("npo-2023.json", loaded_snapshot)), connect loaded_store) /\
  outcome (restore loaded_snapshot empty_store) = Ok tt /\
  ~ Permutation (knowledge (stored (restore loaded_snapshot empty_store)))
                (knowledge loaded_store).
Proof.
  split; [vm_compute; reflexivity|].
  split; [vm_compute; reflexivity|].
  intros P.
  assert (Hin : In (SqlText "npo-2023", SqlText "path:1",
                    JObj [("label", JStr "path:1"); ("id", JStr "path:1")])
                   (knowledge loaded_store)).
  { apply (Permutation_in _ P). vm_compute. left. reflexivity. }
  simpl in Hin. destruct Hin as [H | [H | []]]; discriminate.
Qed.

(* ------------------------------------------------------------------ *)
(** * The outcome of a restore and the store *)

Lemma agrees_ret {A} s (a : A) : agrees s (ret a).
Proof. intros c1 c2 H. split; [reflexivity | exact H]. Qed.

Lemma agrees_raise {A} s e : agrees s (@raise A e).
Proof. intros c1 c2 H. split; [reflexivity | exact H]. Qed.

Lemma agrees_lift {A} s (x : result A) : agrees s (lift x).
Proof. intros c1 c2 H. split; [reflexivity | exact H]. Qed.

Lemma agrees_update s f :
  (forall t, knowledge (f t) = knowledge t) -> agrees s (update f).
Proof.
  intros Hf c1 c2 H. split; [reflexivity|].
  intros e. simpl. rewrite !Hf. apply H.
Qed.

Lemma agrees_bind {A B} s (m : M A) (k : A -> M B) :
  agrees s m -> (forall a, agrees s (k a)) -> agrees s (bind m k).
Proof.
  intros Hm Hk c1 c2 H. destruct (Hm c1 c2 H) as (E & H'). unfold bind.
  destruct (m c1) as [[a1|e1] c1'], (m c2) as [[a2|e2] c2']; simpl in *;
    try discriminate.
  - injection E as ->. apply Hk. exact H'.
  - injection E as ->. split; [reflexivity | exact H'].
Qed.

Lemma agrees_if {A} s (b : bool) (m1 m2 : M A) :
  agrees s m1 -> agrees s m2 -> agrees s (if b then m1 else m2).
Proof. destruct b; auto. Qed.

Lemma agrees_for_each {A} s (body : A -> M unit) l :
  (forall x, agrees s (body x)) -> agrees s (for_each body l).
Proof.
  intros Hb. induction l as [|x l IH]; simpl.
  - apply agrees_ret.
  - apply agrees_bind; auto.
Qed.

Lemma agrees_for_each_with {A S} s (body : S -> A -> M S) l :
  (forall st x, agrees s (body st x)) ->
  forall st, agrees s (for_each_with body st l).
Proof.
  intros Hb. induction l as [|x l IH]; intros st; simpl.
  - apply agrees_ret.
  - apply agrees_bind; auto.
Qed.

Ltac agrees :=
  repeat match goal with
  | |- agrees _ (ret _) => apply agrees_ret
  | |- agrees _ (raise _) => apply agrees_raise
  | |- agrees _ (lift _) => apply agrees_lift
  | |- agrees _ (update _) => apply agrees_update; intros ?; reflexivity
  | |- agrees _ (bind _ _) => apply agrees_bind; [| intros ?]
  | |- agrees _ (if _ then _ else _) => apply agrees_if
  | |- agrees _ (for_each _ _) => apply agrees_for_each; intros ?
  | |- agrees _ (for_each_with _ _ _) =>
      apply agrees_for_each_with; intros ? ?
  end.

Lemma agrees_bind_lift {A B} s (x : result A) (k : A -> M B) :
  (forall a, x = Ok a -> agrees s (k a)) -> agrees s (bind (lift x) k).
Proof.
  intros Hk c1 c2 H. unfold bind, lift. destruct x as [a|e].
  - apply Hk; [reflexivity | exact H].
  - split; [reflexivity | exact H].
Qed.

Lemma agrees_insert_knowledge ks s ej d :
  sql_bind ks = Ok s -> agrees s (insert_knowledge ks ej d).
Proof.
  intros Hs. unfold insert_knowledge.
  apply agrees_bind; [apply agrees_lift | intros _].
  apply agrees_bind_lift. intros s' Es. rewrite Hs in Es. injection Es as <-.
  apply agrees_bind; [apply agrees_lift | intros e].
  intros c1 c2 H. rewrite <- (H e).
  destruct (knowledge_conflict s e (knowledge (txn c1))).
  - split; [reflexivity | exact H].
  - split; [reflexivity|]. intros e'. simpl.
    rewrite !knowledge_conflict_app, (H e'). reflexivity.
Qed.

Lemma agrees_restore_record ks s r :
  sql_bind ks = Ok s -> agrees s (restore_record ks r).
Proof.
  intros Hs. unfold restore_record.
  apply agrees_bind; [apply agrees_lift | intros entity].
  apply agrees_bind; [apply agrees_insert_knowledge; exact Hs | intros _].
  unfold replace_label, delete_publications, insert_publications,
    insert_publication, restore_edge, restore_node, insert_connectivity_node.
  agrees.
  match goal with
  | |- agrees _ (match ?v with _ => _ end) =>
      destruct v as [|? [|? [|? [|? ?]]]]; agrees
  end.
Qed.

Lemma knowledge_conflict_other_source s e rows :
  knowledge_conflict s e (filter (other_source s) rows) = false.
Proof.
  induction rows as [|r rows IH]; simpl; [reflexivity|].
  unfold other_source at 1. destruct (sql_eq (fst (fst r)) s) eqn:E; simpl.
  - exact IH.
  - rewrite E. exact IH.
Qed.

Lemma restore_rows_unfold snap store :
  restore_rows snap (connect store) =
  match py_getitem_str snap "source" with
  | Raise x => (Raise x, connect store)
  | Ok ks =>
      match sql_bind ks with
      | Raise x => (Raise x, connect store)
      | Ok s =>
          match py_getitem_str snap "knowledge" with
          | Raise x => (Raise x, Connection store (delete_source s store))
          | Ok saved =>
              match py_iter saved with
              | Raise x => (Raise x, Connection store (delete_source s store))
              | Ok rs =>
                  for_each (restore_record ks) rs
                    (Connection store (delete_source s store))
              end
          end
      end
  end.
Proof.
  unfold restore_rows, clean_connectivity, delete_knowledge,
    delete_connectivity_nodes, bind, lift, update, connect.
  destruct (py_getitem_str snap "source") as [ks|x]; [|reflexivity].
  destruct (sql_bind ks) as [s|x]; [|reflexivity]. simpl.
  unfold set_connectivity_nodes, set_knowledge. simpl.
  rewrite !filter_twice. fold (delete_source s store).
  destruct (py_getitem_str snap "knowledge") as [saved|x]; [|reflexivity].
  destruct (py_iter saved) as [rs|x]; reflexivity.
Qed.

(** What the rows of the snapshot make of the transaction decides how
    [restore] ends: the commit that follows does not fail. *)
Lemma restore_outcome_rows snap store :
  outcome (restore snap store) = fst (restore_rows snap (connect store)).
Proof.
  unfold outcome, restore, restore_cmd, bind.
  destruct (restore_rows snap (connect store)) as [[[]|e] c]; reflexivity.
Qed.

Lemma restore_rows_outcome snap store1 store2 :
  fst (restore_rows snap (connect store1)) =
  fst (restore_rows snap (connect store2)).
Proof.
  rewrite !restore_rows_unfold.
  destruct (py_getitem_str snap "source") as [ks|x]; [|reflexivity].
  destruct (sql_bind ks) as [s|x] eqn:Es; [|reflexivity].
  destruct (py_getitem_str snap "knowledge") as [saved|x]; [|reflexivity].
  destruct (py_iter saved) as [rs|x]; [|reflexivity].
  apply (agrees_for_each s (restore_record ks) rs
           (fun r => agrees_restore_record ks s r Es)).
  intros e. simpl. rewrite !knowledge_conflict_other_source. reflexivity.
Qed.

(** X1.  Whether [restore] ends well, and with which exception it ends
    otherwise, does not depend on what the store holds. *)
Theorem restore_outcome_any_store :
  forall (snap : json) (store1 store2 : tables),
    outcome (restore snap store1) = outcome (restore snap store2).
Proof.
  intros snap store1 store2. rewrite !restore_outcome_rows.
  apply restore_rows_outcome.
Qed.

(* ------------------------------------------------------------------ *)
(** * The rows of other sources *)

Lemma sql_eq_true a b : sql_eq a b = true -> a = b.
Proof.
  destruct a, b; simpl; try discriminate; intros H.
  - apply Z.eqb_eq in H. subst. reflexivity.
  - apply String.eqb_eq in H. subst. reflexivity.
Qed.

Lemma filter_of_source_other {B C} (s' : string) (s : sqlval)
  (rows : list (sqlval * B * C)) :
  s <> SqlText s' ->
  filter (of_source s') (filter (other_source s) rows) =
  filter (of_source s') rows.
Proof.
  intros Hn. rewrite filter_filter. apply filter_ext. intros r.
  unfold other_source, of_source.
  destruct (sql_eq (fst (fst r)) (SqlText s')) eqn:E; [|apply andb_false_r].
  apply sql_eq_text in E. rewrite E.
  destruct (sql_eq (SqlText s') s) eqn:E'; [|reflexivity].
  apply sql_eq_true in E'. symmetry in E'. contradiction.
Qed.

Lemma filter_of_source_new {B C} (s' : string) (s : sqlval)
  (rows : list (sqlval * B * C)) :
  s <> SqlText s' ->
  (forall row, In row rows -> fst (fst row) = s) ->
  filter (of_source s') rows = [].
Proof.
  intros Hn H. apply filter_none. intros row Hin. unfold of_source.
  rewrite (H row Hin). destruct (sql_eq s (SqlText s')) eqn:E; [|reflexivity].
  apply sql_eq_true in E. contradiction.
Qed.

Lemma filter_of_source_restored {B C} (s' : string) (s : sqlval)
  (old new : list (sqlval * B * C)) :
  s <> SqlText s' ->
  (forall row, In row new -> fst (fst row) = s) ->
  filter (of_source s') (filter (other_source s) old ++ new) =
  filter (of_source s') old.
Proof.
  intros Hn H.
  rewrite filter_app, (filter_of_source_other s' s old Hn).
  rewrite (filter_of_source_new s' s new Hn H). apply app_nil_r.
Qed.

(** X2.  A restore, whether it succeeds or not, leaves the knowledge and
    connectivity_nodes rows of every other source as they were, in their
    order. *)
Theorem restore_keeps_other_sources :
  forall (snap : json) (store : tables) (s' : string),
    snapshot_source snap <> Ok (SqlText s') ->
    filter (of_source s') (knowledge (stored (restore snap store))) =
      filter (of_source s') (knowledge store) /\
    filter (of_source s') (connectivity_nodes (stored (restore snap store))) =
      filter (of_source s') (connectivity_nodes store).
Proof.
  intros snap store s' Hn.
  pose proof (restore_run snap store) as R.
  destruct (restore_image snap store) as [t'|] eqn:I.
  - unfold stored. rewrite R. simpl.
    destruct (restore_image_some snap store t' I) as (s & rs & Hs & _ & A).
    assert (Hs' : s <> SqlText s') by (intros ->; contradiction).
    destruct (apply_records_plans s rs _ _ A) as (_ & K & _ & N).
    unfold delete_source in K, N. simpl in K, N. rewrite K, N.
    split; apply filter_of_source_restored; try exact Hs'.
    + intros row Hin. apply in_map_iff in Hin.
      destruct Hin as (rp & <- & _). reflexivity.
    + intros row Hin. apply in_flat_map in Hin.
      destruct Hin as (p & _ & Hin). unfold node_rows_of in Hin.
      apply in_map_iff in Hin. destruct Hin as (n & <- & _). reflexivity.
  - destruct (restore_cases snap store) as [(e & c & _ & E & D) | (c & _ & E & _)].
    + unfold stored. rewrite E. simpl. rewrite D. split; reflexivity.
    + destruct R as (x & c' & R). rewrite R in E. discriminate.
Qed.

Lemma restore_keeps_other_sources_witness :
  filter (of_source "sckan-old")
    (knowledge (stored (restore shared_node_snapshot mixed_store))) =
    filter (of_source "sckan-old") (knowledge mixed_store) /\
  filter (of_source "sckan-old")
    (connectivity_nodes (stored (restore shared_node_snapshot mixed_store))) =
    filter (of_source "sckan-old") (connectivity_nodes mixed_store).
Proof.
  apply (restore_keeps_other_sources shared_node_snapshot mixed_store "sckan-old").
  vm_compute. discriminate.
Defined.

(* ------------------------------------------------------------------ *)
(** * The labels table *)

Lemma labels_index_snoc rows e v :
  labels_index (rows ++ [(e, v)]) =
  labels_index rows && negb (existsb (fun x => sql_eq (fst x) e) rows).
Proof.
  induction rows as [|r rows IH]; simpl.
  - reflexivity.
  - rewrite IH, existsb_app. simpl. rewrite (sql_eq_sym e).
    destruct (existsb (fun x => sql_eq (fst x) (fst r)) rows),
      (sql_eq (fst r) e), (labels_index rows),
      (existsb (fun x => sql_eq (fst x) e) rows); reflexivity.
Qed.

Lemma existsb_filter_false {A} (f g : A -> bool) l :
  existsb g l = false -> existsb g (filter f l) = false.
Proof.
  induction l as [|a l IH]; simpl; [auto|].
  intros H. apply orb_false_elim in H. destruct H as (H1 & H2).
  destruct (f a); simpl; [rewrite H1|]; auto.
Qed.

Lemma labels_index_filter f rows :
  labels_index rows = true -> labels_index (filter f rows) = true.
Proof.
  induction rows as [|r rows IH]; simpl; [auto|].
  intros H. apply andb_prop in H. destruct H as (H1 & H2).
  destruct (f r); simpl; [|auto].
  rewrite (IH H2), andb_true_r. apply negb_true_iff in H1.
  apply negb_true_iff. apply existsb_filter_false. exact H1.
Qed.

Lemma labels_index_relabel e l rows :
  labels_index rows = true -> labels_index (relabel e l rows) = true.
Proof.
  intros H. destruct l as [v|]; simpl; [|exact H].
  rewrite labels_index_snoc, (labels_index_filter _ _ H). simpl.
  apply negb_true_iff.
  induction rows as [|r rows IH]; simpl; [reflexivity|].
  simpl in H. apply andb_prop in H. destruct H as (_ & H).
  destruct (sql_eq (fst r) e) eqn:E; simpl; [|rewrite E]; auto.
Qed.

Lemma labels_index_relabel_all ps : forall rows,
  labels_index rows = true -> labels_index (relabel_all ps rows) = true.
Proof.
  induction ps as [|p ps IH]; intros rows H; simpl; [exact H|].
  apply IH, labels_index_relabel, H.
Qed.

(** X3.  A restore keeps the unique index of the labels table valid: at most
    one label row for an entity, before and after. *)
Theorem restore_keeps_labels_index :
  forall (snap : json) (store : tables),
    labels_index (labels store) = true ->
    labels_index (labels (stored (restore snap store))) = true.
Proof.
  intros snap store U.
  pose proof (restore_run snap store) as R.
  destruct (restore_image snap store) as [t'|] eqn:I.
  - unfold stored. rewrite R. simpl.
    destruct (restore_image_some snap store t' I) as (s & rs & _ & _ & A).
    destruct (apply_records_labels s rs _ _ A) as (L & _).
    rewrite L. apply labels_index_relabel_all. exact U.
  - destruct (restore_cases snap store) as [(e & c & _ & E & D) | (c & _ & E & _)].
    + unfold stored. rewrite E. simpl. rewrite D. exact U.
    + destruct R as (x & c' & R). rewrite R in E. discriminate.
Qed.

Lemma restore_keeps_labels_index_witness :
  labels_index (labels mixed_store) = true /\
  labels_index (labels (stored (restore (json_of_snapshot relabel_typed_snapshot) mixed_store))) = true.
Proof.
  split.
  - reflexivity.
  - apply (restore_keeps_labels_index (json_of_snapshot relabel_typed_snapshot) mixed_store).
    reflexivity.
Defined.

Lemma labels_of_relabel_other e e' l L :
  sql_eq e' e = false -> labels_of e (relabel e' l L) = labels_of e L.
Proof.
  intros H. destruct l as [v|]; simpl; [|reflexivity].
  unfold labels_of. rewrite filter_app. simpl. rewrite H, app_nil_r.
  rewrite filter_filter. apply filter_ext. intros r. simpl.
  destruct (sql_eq (fst r) e) eqn:E; [|apply andb_false_r].
  apply sql_eq_true in E. rewrite E, (sql_eq_sym e e'), H. reflexivity.
Qed.

Lemma labels_of_relabel_same e v L :
  sql_eq e e = true -> labels_of e (relabel e (Some v) L) = [(e, v)].
Proof.
  intros H. unfold labels_of. simpl. rewrite filter_app. simpl. rewrite H.
  rewrite filter_filter, filter_none; [reflexivity|].
  intros x _. destruct (sql_eq (fst x) e); reflexivity.
Qed.

Lemma apply_records_keeps_labels_of s e rs : forall t t',
  apply_records s rs t = Some t' ->
  sql_eq s s = true ->
  (exists d, In (s, e, d) (knowledge t)) ->
  labels_of e (labels t') = labels_of e (labels t).
Proof.
  induction rs as [|r rs IH]; intros t t' A Hs (d & Hin); simpl in A.
  - injection A as <-. reflexivity.
  - destruct (record_plan r) as [p|]; [|discriminate].
    destruct (knowledge_conflict s (plan_entity p) (knowledge t)) eqn:Ec;
      [discriminate|].
    rewrite (IH _ _ A Hs).
    + simpl. apply labels_of_relabel_other.
      unfold knowledge_conflict in Ec. rewrite <- not_true_iff_false in Ec.
      rewrite existsb_exists in Ec. apply not_true_iff_false. intros E.
      apply Ec. exists (s, e, d). split; [exact Hin|]. simpl.
      rewrite Hs, sql_eq_sym. exact E.
    + exists d. simpl. apply in_or_app. left. exact Hin.
Qed.

Lemma apply_records_labels_of s rs : forall t t',
  apply_records s rs t = Some t' ->
  sql_eq s s = true ->
  forall r p v,
    In r rs -> record_plan r = Ok p -> plan_label p = Some v ->
    sql_eq (plan_entity p) (plan_entity p) = true ->
    labels_of (plan_entity p) (labels t') = [(plan_entity p, v)].
Proof.
  induction rs as [|r0 rs IH]; intros t t' A Hs r p v Hin Hp Hl He;
    simpl in A; [contradiction|].
  destruct (record_plan r0) as [p0|] eqn:Ep0; [|discriminate].
  destruct (knowledge_conflict s (plan_entity p0) (knowledge t)); [discriminate|].
  destruct Hin as [<- | Hin].
  - rewrite Hp in Ep0. injection Ep0 as <-.
    rewrite (apply_records_keeps_labels_of s (plan_entity p) rs _ _ A Hs).
    + simpl. rewrite Hl. apply labels_of_relabel_same. exact He.
    + exists r0. simpl. apply in_or_app. right. left. reflexivity.
  - exact (IH _ _ A Hs r p v Hin Hp Hl He).
Qed.

Lemma dict_lookup_set_other key key' v m :
  String.eqb key key' = false ->
  dict_lookup key' (dict_set key v m) = dict_lookup key' m.
Proof.
  intros H. induction m as [|[k x] m IH]; simpl.
  - rewrite H. reflexivity.
  - destruct (String.eqb k key) eqn:E; simpl.
    + apply String.eqb_eq in E. subst k. rewrite H. reflexivity.
    + rewrite IH. reflexivity.
Qed.

Lemma snapshot_image sn store t' :
  restore_image (json_of_snapshot sn) store = Some t' ->
  apply_records (SqlText (snapshot_name sn))
    (map json_of_record (snapshot_knowledge sn))
    (delete_source (SqlText (snapshot_name sn)) store) = Some t'.
Proof. intros H. exact H. Qed.

(** X4.  After a restore that succeeds, an entity whose record carries a
    label has exactly one label row, the one of its record, whatever label
    it had in the store before and whichever source had given it. *)
Theorem restore_label_replaces :
  forall (sn : snapshot) (store : tables) (r : snapshot_record) (l : json)
         (v : sqlval),
    outcome (restore (json_of_snapshot sn) store) = Ok tt ->
    In r (snapshot_knowledge sn) ->
    dict_lookup "label" (record_fields r) = Some l ->
    sql_bind l = Ok v ->
    labels_of (SqlText (record_id r))
      (labels (stored (restore (json_of_snapshot sn) store))) =
    [(SqlText (record_id r), v)].
Proof.
  intros sn store r l v H Hin Hl Hv.
  destruct (restore_ok_image _ _ H) as (t' & I & R).
  unfold stored. rewrite R. simpl. apply snapshot_image in I.
  destruct (apply_records_plans _ _ _ _ I) as (F & _).
  assert (Hr : In (json_of_record r) (map json_of_record (snapshot_knowledge sn)))
    by (apply in_map; exact Hin).
  assert (Hp : exists p, record_plan (json_of_record r) = Ok p).
  { clear - F Hr. induction F as [|x p xs ps Hx F IH]; [contradiction|].
    destruct Hr as [<- | Hr]; [exists p; exact Hx | exact (IH Hr)]. }
  destruct Hp as (p & Hp).
  destruct (record_plan_inv _ _ Hp) as (He & Hlab & _).
  assert (Ee : plan_entity p = SqlText (record_id r)).
  { unfold record_entity, json_of_record, py_getitem_str in He.
    rewrite dict_lookup_set in He. simpl in He. injection He as <-.
    reflexivity. }
  assert (El : plan_label p = Some v).
  { unfold record_label, json_of_record, py_contains_key, py_getitem_str in Hlab.
    rewrite (dict_lookup_set_other "id" "label") in Hlab by reflexivity.
    rewrite Hl in Hlab. simpl in Hlab. rewrite Hv in Hlab. simpl in Hlab.
    injection Hlab as <-. reflexivity. }
  rewrite <- Ee.
  apply (apply_records_labels_of _ _ _ _ I (String.eqb_refl _)
           (json_of_record r) p v Hr Hp El).
  rewrite Ee. apply String.eqb_refl.
Qed.

Lemma restore_label_replaces_witness :
  labels_of (SqlText "path:1") (labels mixed_store) =
    [(SqlText "path:1", SqlText "old label")] /\
  labels_of (SqlText "path:1")
    (labels (stored (restore (json_of_snapshot relabel_typed_snapshot) mixed_store))) =
    [(SqlText "path:1", SqlText "new label")].
Proof.
  split.
  - reflexivity.
  - apply (restore_label_replaces relabel_typed_snapshot mixed_store
             (SnapshotRecord "path:1" [("label", JStr "new label")])
             (JStr "new label") (SqlText "new label")).
    + vm_compute. reflexivity.
    + left. reflexivity.
    + reflexivity.
    + reflexivity.
Defined.

(* ------------------------------------------------------------------ *)
(** * When a restore succeeds *)

Lemma typed_record_entity r p :
  record_plan (json_of_record r) = Ok p ->
  plan_entity p = SqlText (record_id r).
Proof.
  intros Hp. destruct (record_plan_inv _ _ Hp) as (He & _).
  unfold record_entity, json_of_record, py_getitem_str in He.
  rewrite dict_lookup_set in He. simpl in He. injection He as <-.
  reflexivity.
Qed.

Lemma knowledge_conflict_same_key s e d rows :
  sql_eq s s = true -> sql_eq e e = true ->
  knowledge_conflict s e (rows ++ [(s, e, d)]) = true.
Proof.
  intros Hs He. rewrite knowledge_conflict_app. simpl.
  rewrite Hs, He. apply orb_true_r.
Qed.

Lemma apply_typed_records_distinct name recs : forall t t',
  apply_records (SqlText name) (map json_of_record recs) t = Some t' ->
  NoDup (map record_id recs) /\
  forall r, In r recs ->
    knowledge_conflict (SqlText name) (SqlText (record_id r)) (knowledge t) = false.
Proof.
  induction recs as [|r recs IH]; intros t t' A; simpl in A.
  - split; [constructor | intros r []].
  - destruct (record_plan (json_of_record r)) as [p|] eqn:Ep; [|discriminate].
    rewrite (typed_record_entity r p Ep) in A.
    destruct (knowledge_conflict (SqlText name) (SqlText (record_id r))
                (knowledge t)) eqn:Ec; [discriminate|].
    destruct (IH _ _ A) as (N & C). simpl in C.
    assert (C' : forall r', In r' recs ->
              knowledge_conflict (SqlText name) (SqlText (record_id r'))
                (knowledge t) = false /\ record_id r' <> record_id r).
    { intros r' Hin. specialize (C r' Hin).
      rewrite knowledge_conflict_app in C. apply orb_false_elim in C.
      destruct C as (C1 & C2). split; [exact C1|].
      intros E. simpl in C2. rewrite (typed_record_entity r p Ep) in C2.
      simpl in C2. rewrite E, !String.eqb_refl in C2. discriminate. }
    split.
    + simpl. constructor; [|exact N].
      intros Hin. apply in_map_iff in Hin. destruct Hin as (r' & E & Hin).
      exact (proj2 (C' r' Hin) E).
    + intros r' [<- | Hin]; [exact Ec | exact (proj1 (C' r' Hin))].
Qed.

Lemma apply_typed_records_some name recs : forall t,
  NoDup (map record_id recs) ->
  (forall r, In r recs -> exists p, record_plan (json_of_record r) = Ok p) ->
  (forall r, In r recs ->
     knowledge_conflict (SqlText name) (SqlText (record_id r)) (knowledge t) = false) ->
  exists t', apply_records (SqlText name) (map json_of_record recs) t = Some t'.
Proof.
  induction recs as [|r recs IH]; intros t N P C; simpl.
  - exists t. reflexivity.
  - destruct (P r (or_introl eq_refl)) as (p & Ep). rewrite Ep.
    rewrite (typed_record_entity r p Ep), (C r (or_introl eq_refl)).
    simpl in N. inversion N as [|x l Hnin N']; subst.
    apply IH.
    + exact N'.
    + intros r' Hin. apply P. right. exact Hin.
    + intros r' Hin. simpl. rewrite knowledge_conflict_app.
      rewrite (C r' (or_intror Hin)). simpl. rewrite orb_false_r.
      rewrite (typed_record_entity r p Ep). simpl.
      rewrite String.eqb_refl. simpl.
      destruct (String.eqb (record_id r) (record_id r')) eqn:E; [|reflexivity].
      apply String.eqb_eq in E. exfalso. apply Hnin. rewrite E.
      apply in_map. exact Hin.
Qed.

Lemma single_record_plan sn r :
  outcome (restore (json_of_snapshot (single_record sn r)) empty_store) = Ok tt <->
  exists p, record_plan (json_of_record r) = Ok p.
Proof.
  pose proof (restore_run (json_of_snapshot (single_record sn r)) empty_store) as R.
  unfold restore_image in R. simpl in R.
  destruct (record_plan (json_of_record r)) as [p|x] eqn:Ep.
  - simpl in R. unfold outcome. rewrite R. split; [exists p|]; reflexivity.
  - destruct R as (x' & c' & R). unfold outcome. rewrite R. simpl. split.
    + discriminate.
    + intros (p & E). discriminate.
Qed.

(** X5.  A snapshot is restored exactly when its ids are pairwise distinct
    and every record of it is restored when it stands alone; what the store
    holds plays no part. *)
Theorem restore_succeeds_iff :
  forall (sn : snapshot) (store : tables),
    outcome (restore (json_of_snapshot sn) store) = Ok tt <->
    NoDup (map record_id (snapshot_knowledge sn)) /\
    forall r, In r (snapshot_knowledge sn) ->
      outcome (restore (json_of_snapshot (single_record sn r)) empty_store) = Ok tt.
Proof.
  intros sn store. split.
  - intros H. destruct (restore_ok_image _ _ H) as (t' & I & _).
    apply snapshot_image in I.
    destruct (apply_typed_records_distinct _ _ _ _ I) as (N & _).
    split; [exact N|].
    intros r Hin. apply single_record_plan.
    destruct (apply_records_plans _ _ _ _ I) as (F & _).
    assert (Hr : In (json_of_record r)
                   (map json_of_record (snapshot_knowledge sn)))
      by (apply in_map; exact Hin).
    clear - F Hr. induction F as [|x p xs ps Hx F IH]; [contradiction|].
    destruct Hr as [<- | Hr]; [exists p; exact Hx | exact (IH Hr)].
  - intros (N & P).
    destruct (apply_typed_records_some (snapshot_name sn) (snapshot_knowledge sn)
                (delete_source (SqlText (snapshot_name sn)) store) N) as (t' & A).
    + intros r Hin. apply (single_record_plan sn r), P, Hin.
    + intros r Hin. apply knowledge_conflict_other_source.
    + pose proof (restore_run (json_of_snapshot sn) store) as R.
      unfold restore_image in R. simpl in R. rewrite A in R.
      unfold outcome. rewrite R. reflexivity.
Qed.

(* ------------------------------------------------------------------ *)
(** * Publications *)

(** X6.  [restore] never adds a publication row: every publication row found
    after it, whether it succeeded or not, was in the store before. *)
Theorem restore_adds_no_publication :
  forall (snap : json) (store : tables),
    incl (publications (stored (restore snap store))) (publications store).
Proof.
  intros snap store row Hin.
  destruct (restore_cases snap store) as [(e & c & _ & E & D) | (c & _ & E & _)].
  - unfold stored in Hin. rewrite E in Hin. simpl in Hin. rewrite D in Hin.
    exact Hin.
  - assert (H : outcome (restore snap store) = Ok tt)
      by (unfold outcome; rewrite E; reflexivity).
    destruct (restore_clears_publications snap store H) as (s & _ & P).
    rewrite P in Hin. apply filter_In in Hin. exact (proj1 Hin).
Qed.

(* ------------------------------------------------------------------ *)
(** * Extract and info *)

(** X7.  [extract] and [info] never write: they leave the store, and the
    connection they were given, as they found them. *)
Theorem extract_and_info_write_nothing :
  forall (KnowledgeStore_read_only : option string -> tables -> result store_handle)
         (knowledge_sources : tables -> list string)
         (arg_source : option string) (store : tables),
    snd (extract KnowledgeStore_read_only arg_source store) = connect store /\
    snd (info knowledge_sources store) = connect store.
Proof.
  intros kro ks arg store. split; [|reflexivity].
  unfold extract, extract_cmd, bind, lift. simpl.
  destruct (kro arg store) as [h|x]; [|reflexivity].
  destruct (db_open h); simpl; [|reflexivity].
  destruct (handle_source h) as [s|]; simpl; [|reflexivity].
  destruct (extract_rows _); reflexivity.
Qed.

Lemma extract_rows_objects rows :
  forallb payload_is_object rows = true ->
  exists saved, extract_rows rows = Ok saved /\
                List.length saved = List.length rows.
Proof.
  induction rows as [|row rows IH]; simpl; intros H.
  - exists []. split; reflexivity.
  - apply andb_prop in H. destruct H as (Ho & H).
    destruct (IH H) as (saved & E & L).
    unfold payload_is_object, is_object in Ho. unfold extract_row, py_setitem_str.
    destruct (snd row); try discriminate. simpl. rewrite E. simpl.
    eexists. split; [reflexivity|]. simpl. rewrite L. reflexivity.
Qed.

Lemma extract_rows_not_objects rows :
  forallb payload_is_object rows = false ->
  extract_rows rows = Raise TypeError.
Proof.
  induction rows as [|row rows IH]; simpl; intros H; [discriminate|].
  unfold payload_is_object at 1 in H. unfold is_object in H.
  unfold extract_row, py_setitem_str.
  destruct (snd row); try reflexivity. simpl in *.
  rewrite (IH H). reflexivity.
Qed.

Lemma extract_unfold (kro : option string -> tables -> result store_handle)
  arg store s :
  kro arg store = Ok (Handle true (Some s)) ->
  outcome (extract kro arg store) =
  match extract_rows (selected_rows s store) with
  | Ok saved => Ok (String.append s ".json",
                    JObj [("source", JStr s); ("knowledge", JArr saved)])
  | Raise x => Raise x
  end.
Proof.
  intros H. unfold outcome. rewrite (extract_run kro arg store s H).
  reflexivity.
Qed.

(** X8.  For a store that opens on the source [s], [extract] writes its file
    exactly when every payload of the source is a JSON object, one record
    for each row; otherwise it ends with a TypeError, raised where the id is
    stored into the payload. *)
Theorem extract_needs_objects :
  forall (KnowledgeStore_read_only : option string -> tables -> result store_handle)
         (arg_source : option string) (store : tables) (s : string),
    KnowledgeStore_read_only arg_source store = Ok (Handle true (Some s)) ->
    if forallb payload_is_object (source_rows s store)
    then exists saved,
           outcome (extract KnowledgeStore_read_only arg_source store) =
             Ok (String.append s ".json",
                 JObj [("source", JStr s); ("knowledge", JArr saved)]) /\
           List.length saved = List.length (source_rows s store)
    else outcome (extract KnowledgeStore_read_only arg_source store) =
           Raise TypeError.
Proof.
  intros kro arg store s H. rewrite (extract_unfold kro arg store s H).
  pose proof (index_order_perm row_entity (source_rows s store)) as P.
  fold (selected_rows s store) in P.
  rewrite <- (forallb_perm payload_is_object _ _ P),
          <- (Permutation_length P).
  destruct (forallb payload_is_object (selected_rows s store)) eqn:E.
  - destruct (extract_rows_objects _ E) as (saved & Es & L).
    exists saved. rewrite Es. split; [reflexivity | exact L].
  - rewrite (extract_rows_not_objects _ E). reflexivity.
Qed.

Lemma extract_needs_objects_witness :
  outcome (extract open_read_only None list_payload_store) = Raise TypeError.
Proof.
  apply (extract_needs_objects open_read_only None list_payload_store "npo-2023").
  reflexivity.
Defined.

(* ------------------------------------------------------------------ *)
(** * Restore, then extract *)

Lemma filter_all {A} (f : A -> bool) l :
  (forall x, In x l -> f x = true) -> filter f l = l.
Proof.
  induction l as [|a l IH]; simpl; intros H; [reflexivity|].
  rewrite (H a (or_introl eq_refl)), IH; [reflexivity|].
  intros x Hin. apply H. right. exact Hin.
Qed.

Lemma nil_app_eq {A} (a b c : list A) : a = [] -> b = c -> a ++ b = c.
Proof. intros -> ->. reflexivity. Qed.

(** The knowledge rows of the source after a restore of a snapshot: the
    ones the restore wrote, and no other. *)
Lemma source_rows_restored name (old new : list knowledge_row) t :
  knowledge t = filter (other_source (SqlText name)) old ++ new ->
  (forall row, In row new -> fst (fst row) = SqlText name) ->
  source_rows name t = new.
Proof.
  intros K H. unfold source_rows. rewrite K, filter_app.
  apply nil_app_eq.
  - apply filter_none. intros row Hin. apply filter_In in Hin.
    destruct Hin as (_ & Ho). unfold other_source in Ho.
    apply negb_true_iff in Ho. exact Ho.
  - apply filter_all. intros row Hin.
    rewrite (H row Hin). simpl. apply String.eqb_refl.
Qed.

(** The rows that the restore of a snapshot writes, record by record. *)
Lemma restored_rows name recs : forall ps,
  Forall2 (fun r p => record_plan r = Ok p) (map json_of_record recs) ps ->
  map (fun rp => knowledge_row_of (SqlText name) (fst rp) (snd rp))
      (combine (map json_of_record recs) ps) =
  map (fun r => (SqlText name, record_key r, json_of_record r)) recs.
Proof.
  induction recs as [|r recs IH]; intros ps F; simpl in *.
  - reflexivity.
  - inversion F as [|x p l ps' Hp F' E1 E2]; subst. simpl.
    rewrite (IH ps' F'). unfold knowledge_row_of.
    rewrite (typed_record_entity r p Hp). reflexivity.
Qed.

Lemma index_insert_map {A B} (f : A -> B) key key' x l :
  (forall a, key (f a) = key' a) ->
  index_insert key (f x) (map f l) = map f (index_insert key' x l).
Proof.
  intros H. induction l as [|y l IH]; simpl; [reflexivity|].
  rewrite !H. destruct (sql_leb (key' x) (key' y)); simpl; [reflexivity|].
  rewrite IH. reflexivity.
Qed.

Lemma index_order_map {A B} (f : A -> B) key key' l :
  (forall a, key (f a) = key' a) ->
  index_order key (map f l) = map f (index_order key' l).
Proof.
  intros H. induction l as [|x l IH]; simpl; [reflexivity|].
  rewrite IH. apply index_insert_map. exact H.
Qed.

Lemma extract_typed_rows name recs :
  extract_rows
    (map (fun r => (SqlText name, record_key r, json_of_record r)) recs) =
  Ok (map json_of_record recs).
Proof.
  induction recs as [|r recs IH]; simpl; [reflexivity|].
  rewrite IH. unfold extract_row. simpl.
  rewrite (dict_set_same "id" (JStr (record_id r))
             (dict_set "id" (JStr (record_id r)) (record_fields r))
             (dict_lookup_set _ _ _)).
  reflexivity.
Qed.

(** X9.  A snapshot that was restored is the one [extract] then writes, up
    to the order of its records: the file holds the same source and the
    same records, member for member, in the order of their ids and not in
    the order in which the snapshot had them, whatever the store held
    before. *)
Theorem restore_then_extract :
  forall (KnowledgeStore_read_only : option string -> tables -> result store_handle)
         (arg_source : option string) (sn : snapshot) (store : tables),
    outcome (restore (json_of_snapshot sn) store) = Ok tt ->
    KnowledgeStore_read_only arg_source
        (stored (restore (json_of_snapshot sn) store)) =
      Ok (Handle true (Some (snapshot_name sn))) ->
    outcome (extract KnowledgeStore_read_only arg_source
               (stored (restore (json_of_snapshot sn) store))) =
      Ok (String.append (snapshot_name sn) ".json",
          json_of_snapshot (in_id_order sn)) /\
    Permutation (snapshot_knowledge (in_id_order sn)) (snapshot_knowledge sn).
Proof.
  intros kro arg sn store H Hh. split; [|apply index_order_perm].
  destruct (restore_ok_image _ _ H) as (t' & I & R).
  unfold stored in *. rewrite R in *. simpl in *.
  rewrite (extract_unfold kro arg t' (snapshot_name sn) Hh).
  apply snapshot_image in I.
  destruct (apply_records_plans _ _ _ _ I) as (F & K & _ & _).
  rewrite (restored_rows (snapshot_name sn) (snapshot_knowledge sn) _ F) in K.
  unfold selected_rows.
  rewrite (source_rows_restored (snapshot_name sn) (knowledge store) _ t' K).
  - match goal with
    | |- match extract_rows ?rows with _ => _ end = _ =>
        assert (E : extract_rows rows =
                    Ok (map json_of_record
                          (index_order record_key (snapshot_knowledge sn))))
    end.
    { rewrite <- (extract_typed_rows (snapshot_name sn)). f_equal.
      apply index_order_map. reflexivity. }
    rewrite E. reflexivity.
  - intros row Hin. apply in_map_iff in Hin.
    destruct Hin as (r & <- & _). reflexivity.
Qed.

Lemma restore_then_extract_witness :
  outcome (extract open_read_only None
             (stored (restore (json_of_snapshot unordered_snapshot) mixed_store))) =
    Ok (String.append (snapshot_name unordered_snapshot) ".json",
        json_of_snapshot (in_id_order unordered_snapshot)) /\
  Permutation (snapshot_knowledge (in_id_order unordered_snapshot))
              (snapshot_knowledge unordered_snapshot).
Proof.
  apply (restore_then_extract open_read_only None unordered_snapshot mixed_store);
    reflexivity.
Defined.

(** The order of the ids is not the order of the snapshot: the record of
    [path:2], first in the snapshot, comes last in the file. *)
Remark restore_then_extract_reorders :
  map record_id (snapshot_knowledge unordered_snapshot) =
    ["path:2"; "path:10"; "path:1"] /\
  map record_id (snapshot_knowledge (in_id_order unordered_snapshot)) =
    ["path:1"; "path:10"; "path:2"].
Proof. split; reflexivity. Qed.

(* ------------------------------------------------------------------ *)
(** * Restore into any store *)

(** X10.  What [restore] writes for its source does not depend on the store
    it restores into: after a restore that succeeds the knowledge and
    connectivity_nodes tables are the rows of the other sources, followed by
    the rows the same restore writes into an empty store. *)
Theorem restore_frame :
  forall (snap : json) (store : tables),
    outcome (restore snap store) = Ok tt ->
    exists s,
      snapshot_source snap = Ok s /\
      knowledge (stored (restore snap store)) =
        filter (other_source s) (knowledge store) ++
        knowledge (stored (restore snap empty_store)) /\
      connectivity_nodes (stored (restore snap store)) =
        filter (other_source s) (connectivity_nodes store) ++
        connectivity_nodes (stored (restore snap empty_store)).
Proof.
  intros snap store H.
  assert (H0 : outcome (restore snap empty_store) = Ok tt)
    by (rewrite restore_outcome_rows, (restore_rows_outcome snap empty_store store),
          <- restore_outcome_rows; exact H).
  destruct (restore_ok_tables snap store H) as (s & rs & t1 & Hs & Hr & A1 & S1).
  destruct (restore_ok_tables snap empty_store H0)
    as (s0 & rs0 & t0 & Hs0 & Hr0 & A0 & S0).
  rewrite Hs in Hs0. injection Hs0 as <-.
  rewrite Hr in Hr0. injection Hr0 as <-.
  destruct (apply_records_plans _ _ _ _ A1) as (_ & K1 & _ & N1).
  destruct (apply_records_plans _ _ _ _ A0) as (_ & K0 & _ & N0).
  simpl in K0, N0, K1, N1.
  exists s. rewrite S1, S0, K1, K0, N1, N0. auto.
Qed.

Lemma restore_frame_witness :
  exists s,
    snapshot_source shared_node_snapshot = Ok s /\
    knowledge (stored (restore shared_node_snapshot mixed_store)) =
      filter (other_source s) (knowledge mixed_store) ++
      knowledge (stored (restore shared_node_snapshot empty_store)) /\
    connectivity_nodes (stored (restore shared_node_snapshot mixed_store)) =
      filter (other_source s) (connectivity_nodes mixed_store) ++
      connectivity_nodes (stored (restore shared_node_snapshot empty_store)).
Proof.
  apply (restore_frame shared_node_snapshot mixed_store). reflexivity.
Defined.

Lemma Forall2_in_combine {A B} (R : A -> B -> Prop) l1 l2 b :
  Forall2 R l1 l2 -> In b l2 -> exists a, In (a, b) (combine l1 l2).
Proof.
  induction 1 as [|x y l1 l2 _ _ IH]; simpl; intros Hin; [contradiction|].
  destruct Hin as [<- | Hin].
  - exists x. left. reflexivity.
  - destruct (IH Hin) as (a & Ha). exists a. right. exact Ha.
Qed.

(** X11.  After a restore that succeeds, every connectivity_nodes row of the
    source names, as its path, an entity that has a knowledge row of the
    source: the node rows of a record are written only after its knowledge
    row. *)
Theorem restore_nodes_have_knowledge :
  forall (snap : json) (store : tables) (s : sqlval) (row : connectivity_row),
    outcome (restore snap store) = Ok tt ->
    snapshot_source snap = Ok s ->
    In row (connectivity_nodes (stored (restore snap store))) ->
    sql_eq (fst (fst row)) s = true ->
    exists d, In (s, snd row, d) (knowledge (stored (restore snap store))).
Proof.
  intros snap store s row H Hs Hin Hrow.
  destruct (restore_ok_tables snap store H) as (s0 & rs & t1 & Hs0 & Hr & A1 & S1).
  rewrite Hs in Hs0. injection Hs0 as <-.
  destruct (apply_records_plans _ _ _ _ A1) as (F & K1 & _ & N1).
  rewrite S1 in *. rewrite N1 in Hin. rewrite K1.
  apply in_app_or in Hin. destruct Hin as [Hin | Hin].
  - simpl in Hin. apply filter_In in Hin. destruct Hin as (_ & Ho).
    unfold other_source in Ho. rewrite Hrow in Ho. discriminate.
  - apply in_flat_map in Hin. destruct Hin as (p & Hp & Hin).
    unfold node_rows_of in Hin. apply in_map_iff in Hin.
    destruct Hin as (n & <- & _).
    destruct (Forall2_in_combine _ _ _ p F Hp) as (r & Hrp).
    exists r. apply in_or_app. right. apply in_map_iff.
    exists (r, p). split; [reflexivity | exact Hrp].
Qed.

Lemma restore_nodes_have_knowledge_witness :
  exists d,
    In (SqlText "npo-2023", SqlText "path:1", d)
       (knowledge (stored (restore shared_node_snapshot mixed_store))).
Proof.
  apply (restore_nodes_have_knowledge shared_node_snapshot mixed_store
           (SqlText "npo-2023")
           (SqlText "npo-2023", shared_node, SqlText "path:1")).
  - reflexivity.
  - reflexivity.
  - vm_compute. auto.
  - reflexivity.
Defined.

(* ------------------------------------------------------------------ *)
(** * Snapshots without records *)

(** X12.  A snapshot without a [knowledge] member ends with a KeyError once
    the rows of its source have been deleted, and the deletion stays
    uncommitted.  The same snapshot with an empty [knowledge] list is
    restored: the deletion is all it does, and it is committed. *)
Theorem restore_without_records :
  forall (m : list (string * json)) (ks : json) (s : sqlval) (store : tables),
    dict_lookup "source" m = Some ks ->
    sql_bind ks = Ok s ->
    dict_lookup "knowledge" m = None ->
    restore (JObj m) store =
      (Raise KeyError, Connection store (delete_source s store)) /\
    restore (JObj (dict_set "knowledge" (JArr []) m)) store =
      (Ok tt, connect (delete_source s store)).
Proof.
  intros m ks s store Hs Hb Hk.
  unfold restore, restore_cmd, bind.
  rewrite !restore_rows_unfold. unfold py_getitem_str.
  rewrite dict_lookup_set, (dict_lookup_set_other "knowledge" "source" _ m eq_refl).
  rewrite Hs, Hb, Hk. split; reflexivity.
Qed.

Lemma restore_without_records_witness :
  restore (JObj [("source", JStr "npo-2023")]) mixed_store =
    (Raise KeyError,
     Connection mixed_store (delete_source (SqlText "npo-2023") mixed_store)) /\
  restore (JObj (dict_set "knowledge" (JArr []) [("source", JStr "npo-2023")]))
          mixed_store =
    (Ok tt, connect (delete_source (SqlText "npo-2023") mixed_store)).
Proof.
  apply (restore_without_records [("source", JStr "npo-2023")]
           (JStr "npo-2023") (SqlText "npo-2023") mixed_store); reflexivity.
Defined.

(* ------------------------------------------------------------------ *)
(** * The records that extract writes *)

Lemma extract_rows_records rows : forall saved,
  extract_rows rows = Ok saved ->
  Forall2 (fun row k =>
             py_getitem_str k "id" = Ok (py_of_sql (snd (fst row))) /\
             forall key, key <> "id" ->
               py_getitem_str k key = py_getitem_str (snd row) key)
          rows saved.
Proof.
  induction rows as [|row rows IH]; simpl; intros saved H.
  - injection H as <-. constructor.
  - destruct (extract_row row) as [k|] eqn:Ek; [|discriminate]. simpl in H.
    destruct (extract_rows rows) as [ks|]; [|discriminate]. simpl in H.
    injection H as <-. constructor; [|apply IH; reflexivity].
    unfold extract_row, py_setitem_str in Ek.
    destruct (snd row) as [| | | | |m]; try discriminate.
    injection Ek as <-. unfold py_getitem_str. split.
    + rewrite dict_lookup_set. reflexivity.
    + intros key Hk. rewrite dict_lookup_set_other; [reflexivity|].
      apply String.eqb_neq. intros E. apply Hk. symmetry. exact E.
Qed.

(** X13.  The document [extract] writes names the source and holds one
    record for each knowledge row of the source, in the order of the
    entities of the rows, which is the order of the unique index and not
    the order of insertion: the payload of the row, whose [id] is the entity
    of the row whatever the payload held under [id], and whose other
    members are untouched. *)
Theorem extract_records_carry_entity :
  forall (KnowledgeStore_read_only : option string -> tables -> result store_handle)
         (arg_source : option string) (store : tables) (s file : string)
         (doc : json),
    KnowledgeStore_read_only arg_source store = Ok (Handle true (Some s)) ->
    outcome (extract KnowledgeStore_read_only arg_source store) = Ok (file, doc) ->
    exists saved,
      doc = JObj [("source", JStr s); ("knowledge", JArr saved)] /\
      Forall2 (fun row k =>
                 py_getitem_str k "id" = Ok (py_of_sql (snd (fst row))) /\
                 forall key, key <> "id" ->
                   py_getitem_str k key = py_getitem_str (snd row) key)
              (selected_rows s store) saved /\
      Permutation (selected_rows s store) (source_rows s store).
Proof.
  intros kro arg store s file doc Hh H.
  rewrite (extract_unfold kro arg store s Hh) in H.
  destruct (extract_rows (selected_rows s store)) as [saved|] eqn:E;
    [|discriminate].
  injection H as _ <-. exists saved. split; [reflexivity|]. split.
  - apply extract_rows_records. exact E.
  - apply index_order_perm.
Qed.

Lemma extract_records_carry_entity_witness :
  exists saved,
    JObj [("source", JStr "npo-2023");
          ("knowledge", JArr [JObj [("id", JStr "path:1"); ("label", JStr "one")];
                              JObj [("label", JStr "ten"); ("id", JStr "path:10")];
                              JObj [("label", JStr "two"); ("id", JStr "path:2")]])] =
      JObj [("source", JStr "npo-2023"); ("knowledge", JArr saved)] /\
    Forall2 (fun row k =>
               py_getitem_str k "id" = Ok (py_of_sql (snd (fst row))) /\
               forall key, key <> "id" ->
                 py_getitem_str k key = py_getitem_str (snd row) key)
            (selected_rows "npo-2023" stale_id_store) saved /\
    Permutation (selected_rows "npo-2023" stale_id_store)
                (source_rows "npo-2023" stale_id_store).
Proof.
  apply (extract_records_carry_entity open_read_only None stale_id_store
           "npo-2023" "npo-2023.json"); reflexivity.
Defined.

(** X14.  [extract] refuses a store that did not open, with an IOError, and
    a store that names no source, with a ValueError; the open store is
    checked first.  Nothing is selected and no file is written. *)
Theorem extract_refuses :
  forall (KnowledgeStore_read_only : option string -> tables -> result store_handle)
         (arg_source : option string) (store : tables) (h : store_handle),
    KnowledgeStore_read_only arg_source store = Ok h ->
    db_open h = false \/ handle_source h = None ->
    extract KnowledgeStore_read_only arg_source store =
      (Raise (if db_open h then ValueError else IOError), connect store).
Proof.
  intros kro arg store h Hh Hc.
  unfold extract, extract_cmd, bind, lift. simpl. rewrite Hh.
  destruct (db_open h); simpl.
  - destruct Hc as [Hc | Hc]; [discriminate|]. rewrite Hc. reflexivity.
  - reflexivity.
Qed.

Lemma extract_refuses_witness :
  extract open_nothing None old_store = (Raise IOError, connect old_store).
Proof.
  apply (extract_refuses open_nothing None old_store (Handle false None)).
  - reflexivity.
  - left. reflexivity.
Defined.

(* ------------------------------------------------------------------ *)
(** * Load and the file it saves *)

Lemma bind_tail {A B C} (m : M A) (k1 : A -> M B) (k2 : A -> M C)
  (F : result C * connection -> result B * connection) :
  (forall e c, F (Raise e, c) = (Raise e, c)) ->
  (forall a c, k1 a c = F (k2 a c)) ->
  forall c, bind m k1 c = F (bind m k2 c).
Proof.
  intros HF Hk c. unfold bind. destruct (m c) as [[a|e] c']; auto.
Qed.

Lemma bind_lift_ok {A B} (a : A) (k : A -> M B) c :
  bind (lift (Ok a)) k c = k a c.
Proof. reflexivity. Qed.

(** X15.  [load --save-json] is [load] followed by [extract]: it ends as
    [load] does when [load] fails, and otherwise saves the file [extract]
    writes for the source of the store from what [load] committed. *)
Theorem load_save_json_is_extract :
  forall (scicrunch_key : option string) (h : store_handle)
         (KnowledgeStore_read_only : option string -> tables -> result store_handle)
         (connectivity_paths : result (list string))
         (entity_knowledge : string -> json -> M unit) (close : M unit)
         (store : tables),
    load scicrunch_key (Ok h) KnowledgeStore_read_only connectivity_paths
         entity_knowledge close true store =
    then_extract KnowledgeStore_read_only (handle_source h)
      (load scicrunch_key (Ok h) KnowledgeStore_read_only connectivity_paths
            entity_knowledge close false store).
Proof.
  intros key h kro paths ek close store.
  unfold load, load_cmd. destruct key; [|reflexivity].
  rewrite !bind_lift_ok.
  destruct (negb (db_open h)); [reflexivity|].
  unfold load_steps.
  repeat (apply bind_tail; [reflexivity | intros ? ?]).
  unfold then_extract, ret, bind, extract. simpl.
  destruct (extract_cmd kro (handle_source h) _) as [[saved|e] c']; reflexivity.
Qed.

(** X16.  When the listing of the paths fails, [load] ends with that
    exception and the knowledge and connectivity_nodes rows of the source
    are already deleted and committed.  When the remote lists no path, all
    that [load] does to the store is that deletion, before it closes the
    store. *)
Theorem load_without_paths :
  forall (key : string) (source : option string)
         (KnowledgeStore_read_only : option string -> tables -> result store_handle)
         (e : exn) (entity_knowledge : string -> json -> M unit)
         (close : M unit) (save_json : bool) (store : tables),
    load (Some key) (Ok (Handle true source)) KnowledgeStore_read_only
         (Raise e) entity_knowledge close save_json store =
      (Raise e, connect (load_deleted source store)) /\
    load (Some key) (Ok (Handle true source)) KnowledgeStore_read_only
         (Ok []) entity_knowledge close false store =
      (rbind (fst (close (connect (load_deleted source store))))
             (fun _ => Ok None),
       snd (close (connect (load_deleted source store)))).
Proof.
  intros key source kro e ek close save store.
  unfold load, load_cmd, load_steps. simpl.
  unfold delete_knowledge, delete_connectivity_nodes, bind, lift.
  rewrite sql_bind_source. simpl.
  unfold load_deleted, connect, set_connectivity_nodes, set_knowledge. simpl.
  split; [reflexivity|].
  destruct (close _) as [[[]|x] c']; reflexivity.
Qed.
